(** * Notex backend: chat session actor and AI workflows

    A shallow embedding of
    - [ChatSession] (the Durable Object keeping one note's conversation),
    - [SummaryWorkflow] and [QuestionsWorkflow] (three model calls each),
    and the properties of them that the specification states.

    Conventions of the embedding.
    - A JavaScript string is a sequence of 16-bit code units; the model keeps
      the strings whose units are below 256 (Rocq's [string]), so [slice]
      counts units exactly as the source does.
    - Timestamps ([Date.now()], milliseconds) are integers far below 2^53, on
      which JavaScript arithmetic is exact: they are [Z].
    - [Date.now()] and [env.AI.run] are the two sources of nondeterminism.
      Each is an oracle indexed by the number of earlier uses; the counters
      are threaded with the state.
    - [state.storage] has value semantics: [get] hands out a deserialized
      copy, so pushing onto the array it returned changes nothing stored
      until [put] is called. *)

From Stdlib Require Import String Ascii List ZArith QArith Lia Bool Arith DecimalString.
Import ListNotations.

Local Open Scope string_scope.
Local Open Scope list_scope.

Notation "s +++ t" := (String.append s t) (at level 60, right associativity).

(* ===================================================================== *)
(** ** The JavaScript built-ins the sources use *)
(* ===================================================================== *)

Module JS.

(** [s.slice(0, n)] on a string. *)
Definition slice0 (n : nat) (s : string) : string := substring 0 n s.

(** [arr.slice(-n)]: the last [n] elements, the whole array when shorter. *)
Definition slice_last {A : Type} (n : nat) (l : list A) : list A :=
  skipn (length l - n) l.

(** [x || d] where [x] is a string or [undefined]: the empty string is
    falsy as well. *)
Definition or_default (x : option string) (d : string) : string :=
  match x with
  | Some EmptyString => d
  | Some s => s
  | None => d
  end.

(** [!x] for a string or [undefined]. *)
Definition falsy (x : option string) : bool :=
  match x with
  | Some EmptyString => true
  | Some _ => false
  | None => true
  end.

(** The string a field holds once it was found truthy. *)
Definition the (x : option string) : string :=
  match x with
  | Some s => s
  | None => EmptyString
  end.

(** [arr.includes(s)] on an array of strings. *)
Definition includes (l : list string) (s : string) : bool :=
  existsb (String.eqb s) l.

(** [String.prototype.toLowerCase] on units below 256: A-Z, and the
    Latin-1 capitals U+00C0-U+00DE without the multiplication sign. *)
Definition lower_unit (c : ascii) : ascii :=
  let n := nat_of_ascii c in
  if ((65 <=? n) && (n <=? 90))%nat then ascii_of_nat (n + 32)
  else if ((192 <=? n) && (n <=? 222) && negb (n =? 215))%nat
       then ascii_of_nat (n + 32)
  else c.

Fixpoint toLowerCase (s : string) : string :=
  match s with
  | EmptyString => EmptyString
  | String c r => String (lower_unit c) (toLowerCase r)
  end.

(** White space and line terminators below 256: TAB, LF, VT, FF, CR, SP
    and NBSP. *)
Definition is_space (c : ascii) : bool :=
  let n := nat_of_ascii c in
  (((9 <=? n) && (n <=? 13)) || (n =? 32) || (n =? 160))%nat.

Fixpoint trimStart (s : string) : string :=
  match s with
  | EmptyString => EmptyString
  | String c r => if is_space c then trimStart r else s
  end.

Fixpoint trimEnd (s : string) : string :=
  match s with
  | EmptyString => EmptyString
  | String c r =>
      match trimEnd r with
      | EmptyString => if is_space c then EmptyString else String c EmptyString
      | r' => String c r'
      end
  end.

(** [String.prototype.trim]. *)
Definition trim (s : string) : string := trimEnd (trimStart s).

(** [arr.join(sep)] on an array of strings. *)
Fixpoint join (sep : string) (l : list string) : string :=
  match l with
  | [] => EmptyString
  | [x] => x
  | x :: r => x +++ sep +++ join sep r
  end.

(** The regular expression [/\[.*\]/s] of the three JSON stages.  With the
    [s] flag [.] matches every unit, and [.*] is greedy, so the leftmost
    match starts at the first opening bracket and ends at the last closing
    bracket after it; there is no match when no closing bracket follows
    the first opening one. *)
Fixpoint after_first_open (s : string) : option string :=
  match s with
  | EmptyString => None
  | String c r => if Ascii.eqb c "[" then Some r else after_first_open r
  end.

Fixpoint through_last_close (s : string) : option string :=
  match s with
  | EmptyString => None
  | String c r =>
      match through_last_close r with
      | Some p => Some (String c p)
      | None => if Ascii.eqb c "]" then Some (String c EmptyString) else None
      end
  end.

(** [text.match(/\[.*\]/s)], giving [match[0]]. *)
Definition match_array (text : string) : option string :=
  match after_first_open text with
  | None => None
  | Some r =>
      match through_last_close r with
      | None => None
      | Some p => Some (String "[" p)
      end
  end.

(** What an evaluation ends in: a value, or a thrown error ([ModelError]
    stands for whatever a rejected model call raises). *)
Inductive Error := TypeError | SyntaxError | ModelError.

Inductive Completion (A : Type) : Type :=
| Normal (a : A)
| Throw (e : Error).
Arguments Normal {A} a.
Arguments Throw {A} e.

Definition cbind {A B : Type} (c : Completion A) (k : A -> Completion B)
  : Completion B :=
  match c with
  | Normal a => k a
  | Throw e => Throw e
  end.

(** [try { body } catch (error) { handler }] where the handler returns. *)
Definition try_catch {A : Type} (body : Completion A) (handler : A) : A :=
  match body with
  | Normal a => a
  | Throw _ => handler
  end.

End JS.

(* ===================================================================== *)
(** ** The Model Invoker: [env.AI.run(model, { messages, max_tokens, temperature })] *)
(* ===================================================================== *)

Record AiMessage := { ai_role : string; ai_content : string }.

Record AiRequest := {
  messages : list AiMessage;
  max_tokens : nat;
  temperature : Q
}.

(** [Fails]: the call rejects (or resolves to [null]/[undefined], so that
    reading [.response] raises): every caller reads [.response] inside its
    [try], so both end in its [catch].  [Responds r]: the call resolves to
    an object whose [response] field is the text [r], or is missing. *)
Inductive AiOutcome :=
| Fails
| Responds (response : option string).

(** The binding [env.AI]: what the [n]-th call answers to a request. *)
Definition Invoker := nat -> AiRequest -> AiOutcome.

(* ===================================================================== *)
(** ** ChatSession: the Durable Object of one note's conversation *)
(* ===================================================================== *)

Module ChatSession.

Record ChatMessage := {
  role : string;
  content : string;
  timestamp : Z
}.

Record SessionData := {
  noteId : string;
  noteContext : string;
  lastActivity : Z
}.

(** [state.storage]: the two records and the single alarm. *)
Record Storage := {
  stored_sessionData : option SessionData;
  stored_messages : option (list ChatMessage);
  stored_alarm : option Z
}.

(** The object between two requests: the field [this.sessionData], its
    storage, how often the clock was read so far, and the requests made
    to the model so far (oldest first). *)
Record Actor := {
  sessionData : option SessionData;
  storage : Storage;
  clock_reads : nat;
  sent : list AiRequest
}.

(** The bodies the handlers serialize into their responses. *)
Inductive Body :=
| Success                                            (* { success: true } *)
| ErrorMessage (error : string)                      (* { error } *)
| Reply (reply : string) (history : list ChatMessage) (* { reply, history } *)
| Messages (msgs : list ChatMessage)                 (* { messages } *)
| NotFound.                                          (* 'Not found' *)

Record Response := { status : nat; body : Body }.

Definition ok (b : Body) : Response := {| status := 200; body := b |}.

(** The requests [fetch] dispatches on, with their JSON bodies destructured.
    A field that may be missing is an [option]. *)
Inductive Request :=
| POST_init (noteId : string) (noteContext : option string)
| POST_message (message : string) (noteContext : option string)
| POST_store (role content : option string)
| GET_history
| POST_clear
| Other.

Definition twentyFourHours : Z := 24 * 60 * 60 * 1000.

Definition systemPrompt (noteContext : string) : string :=
  "You are Bob, a helpful AI study assistant. You help students understand their notes by answering questions, explaining concepts, and providing study guidance.

Current note context:
" +++ JS.slice0 4000 noteContext +++ "

Be concise, clear, and educational in your responses.".

(** [{ role: m.role, content: m.content.slice(0, 2000) }] *)
Definition to_ai (m : ChatMessage) : AiMessage :=
  {| ai_role := role m; ai_content := JS.slice0 2000 (content m) |}.

Section Handlers.

Variable Date_now : nat -> Z.   (* the [n]-th reading of the clock *)
Variable AI : Invoker.

(** Handlers are state transformers on the actor. *)
Definition M (A : Type) : Type := Actor -> A * Actor.

Definition ret {A : Type} (x : A) : M A := fun a => (x, a).

Definition bind {A B : Type} (m : M A) (k : A -> M B) : M B :=
  fun a => let '(x, a') := m a in k x a'.

Notation "x <- m ;; k" := (bind m (fun x => k))
  (at level 100, m at next level, right associativity).
Notation "m ;;; k" := (bind m (fun _ => k))
  (at level 100, right associativity).

Definition now : M Z := fun a =>
  (Date_now (clock_reads a),
   {| sessionData := sessionData a; storage := storage a;
      clock_reads := S (clock_reads a); sent := sent a |}).

Definition AI_run (req : AiRequest) : M AiOutcome := fun a =>
  (AI (length (sent a)) req,
   {| sessionData := sessionData a; storage := storage a;
      clock_reads := clock_reads a; sent := sent a ++ [req] |}).

Definition this_sessionData : M (option SessionData) :=
  fun a => (sessionData a, a).

Definition set_this_sessionData (d : option SessionData) : M unit :=
  fun a => (tt, {| sessionData := d; storage := storage a;
                   clock_reads := clock_reads a; sent := sent a |}).

Definition with_storage (f : Storage -> Storage) : M unit :=
  fun a => (tt, {| sessionData := sessionData a; storage := f (storage a);
                   clock_reads := clock_reads a; sent := sent a |}).

Definition put_sessionData (d : SessionData) : M unit :=
  with_storage (fun s =>
    {| stored_sessionData := Some d;
       stored_messages := stored_messages s;
       stored_alarm := stored_alarm s |}).

Definition put_messages (l : list ChatMessage) : M unit :=
  with_storage (fun s =>
    {| stored_sessionData := stored_sessionData s;
       stored_messages := Some l;
       stored_alarm := stored_alarm s |}).

Definition delete_messages : M unit :=
  with_storage (fun s =>
    {| stored_sessionData := stored_sessionData s;
       stored_messages := None;
       stored_alarm := stored_alarm s |}).

Definition setAlarm (t : Z) : M unit :=
  with_storage (fun s =>
    {| stored_sessionData := stored_sessionData s;
       stored_messages := stored_messages s;
       stored_alarm := Some t |}).

(** The constructor: [this.sessionData = await storage.get('sessionData')]. *)
Definition constructor : M unit :=
  fun a => set_this_sessionData (stored_sessionData (storage a)) a.

(** [getMessages]: [messages || []]. *)
Definition getMessages : M (list ChatMessage) := fun a =>
  (match stored_messages (storage a) with
   | Some l => l
   | None => []
   end, a).

Definition handleInit (noteId : string) (noteContext : option string)
  : M Response :=
  t <- now ;;
  let d := {| noteId := noteId;
              noteContext := JS.or_default noteContext EmptyString;
              lastActivity := t |} in
  set_this_sessionData (Some d) ;;;
  put_sessionData d ;;;
  t' <- now ;;
  let alarmTime := (t' + twentyFourHours)%Z in
  setAlarm alarmTime ;;;
  ret (ok Success).

(** The list handed to the model: the system prompt, then the last ten
    of the working copy [messages] (the user message included). *)
Definition aiMessages (d : SessionData) (messages : list ChatMessage)
  : list AiMessage :=
  let recentMessages := JS.slice_last 10 messages in
  {| ai_role := "system"; ai_content := systemPrompt (noteContext d) |}
    :: map to_ai recentMessages.

Definition handleMessage (message : string) (noteContext : option string)
  : M Response :=
  sd <- this_sessionData ;;
  match sd with
  | None =>
      ret {| status := 400; body := ErrorMessage "Session not initialized" |}
  | Some d =>
      d <- match noteContext with
           | Some c =>
               t <- now ;;
               let d' := {| noteId := noteId d; noteContext := c;
                            lastActivity := t |} in
               set_this_sessionData (Some d') ;;;
               put_sessionData d' ;;;
               ret d'
           | None => ret d
           end ;;
      messages <- getMessages ;;
      t <- now ;;
      let userMessage :=
        {| role := "user"; content := message; timestamp := t |} in
      let messages := messages ++ [userMessage] in
      r <- AI_run {| messages := aiMessages d messages;
                     max_tokens := 1024;
                     temperature := 7 # 10 |} ;;
      match r with
      | Responds response =>
          let reply :=
            JS.or_default response "Sorry, I could not generate a response." in
          t <- now ;;
          let assistantMessage :=
            {| role := "assistant"; content := reply; timestamp := t |} in
          let messages := messages ++ [assistantMessage] in
          let messagesToKeep := JS.slice_last 50 messages in
          put_messages messagesToKeep ;;;
          t <- now ;;
          let d' := {| noteId := noteId d; noteContext := ChatSession.noteContext d;
                       lastActivity := t |} in
          set_this_sessionData (Some d') ;;;
          put_sessionData d' ;;;
          ret (ok (Reply reply messagesToKeep))
      | Fails =>
          ret {| status := 500; body := ErrorMessage "AI request failed" |}
      end
  end.

Definition handleStoreMessage (role content : option string) : M Response :=
  if JS.falsy role || JS.falsy content then
    ret {| status := 400; body := ErrorMessage "Missing role or content" |}
  else
    messages <- getMessages ;;
    t <- now ;;
    let newMessage := {| role := JS.the role; content := JS.the content;
                         timestamp := t |} in
    let messages := messages ++ [newMessage] in
    let messagesToKeep := JS.slice_last 50 messages in
    put_messages messagesToKeep ;;;
    sd <- this_sessionData ;;
    match sd with
    | Some d =>
        t <- now ;;
        let d' := {| noteId := noteId d; noteContext := noteContext d;
                     lastActivity := t |} in
        set_this_sessionData (Some d') ;;;
        put_sessionData d'
    | None => ret tt
    end ;;;
    ret (ok Success).

Definition handleGetHistory : M Response :=
  messages <- getMessages ;;
  ret (ok (Messages messages)).

Definition handleClear : M Response :=
  delete_messages ;;;
  ret (ok Success).

(** [fetch]: the dispatch on path and method.  With the typed requests
    above no handler raises, so the surrounding [try] never catches. *)
Definition fetch (request : Request) : M Response :=
  match request with
  | POST_init noteId noteContext => handleInit noteId noteContext
  | POST_message message noteContext => handleMessage message noteContext
  | POST_store role content => handleStoreMessage role content
  | GET_history => handleGetHistory
  | POST_clear => handleClear
  | Other => ret {| status := 404; body := NotFound |}
  end.

(** [alarm]: the idle-timeout handler the platform calls at the scheduled
    time. *)
Definition alarm : M unit :=
  sd <- this_sessionData ;;
  match sd with
  | Some d =>
      t <- now ;;
      let inactiveDuration := (t - lastActivity d)%Z in
      if (inactiveDuration >=? twentyFourHours)%Z then
        delete_messages
      else
        let nextAlarmTime := (lastActivity d + twentyFourHours)%Z in
        setAlarm nextAlarmTime
  | None => ret tt
  end.

(** A sequence of requests served one after the other (one operation at
    a time per actor), with the responses in order. *)
Fixpoint serve (requests : list Request) : M (list Response) :=
  match requests with
  | [] => ret []
  | r :: rest =>
      resp <- fetch r ;;
      resps <- serve rest ;;
      ret (resp :: resps)
  end.

(** What reaches the object: a request, or the platform firing the
    alarm. *)
Inductive Event :=
| Fetch (request : Request)
| AlarmFires.

Definition deliver (e : Event) : M unit :=
  match e with
  | Fetch request => fetch request ;;; ret tt
  | AlarmFires => alarm
  end.

Fixpoint deliver_all (events : list Event) : M unit :=
  match events with
  | [] => ret tt
  | e :: rest => deliver e ;;; deliver_all rest
  end.

End Handlers.

(** A freshly created object: nothing stored, no alarm. *)
Definition fresh : Actor :=
  {| sessionData := None;
     storage := {| stored_sessionData := None;
                   stored_messages := None;
                   stored_alarm := None |};
     clock_reads := 0; sent := [] |}.

(** The field [this.sessionData] and the stored record agree: the
    constructor would reload what the object already holds. *)
Definition in_sync (a : Actor) : Prop :=
  sessionData a = stored_sessionData (storage a).

(** The stored history, as [getMessages] reads it. *)
Definition history (a : Actor) : list ChatMessage :=
  match stored_messages (storage a) with
  | Some l => l
  | None => []
  end.

(** What a caller sees appended, as (role, content): a stored message
    when [/store] answers with success, the user message and the reply
    when [/message] answers with a reply, nothing otherwise. *)
Definition entry (m : ChatMessage) : string * string := (role m, content m).

Definition appended_by (request : Request) (response : Response)
  : list (string * string) :=
  match request, body response with
  | POST_store role content, Success => [(JS.the role, JS.the content)]
  | POST_message message _, Reply reply _ =>
      [("user", message); ("assistant", reply)]
  | _, _ => []
  end.

Fixpoint appended (requests : list Request) (responses : list Response)
  : list (string * string) :=
  match requests, responses with
  | r :: requests, p :: responses => appended_by r p ++ appended requests responses
  | _, _ => []
  end.

(** The two appending operations of the actor. *)
Definition appends (request : Request) : bool :=
  match request with
  | POST_store _ _ | POST_message _ _ => true
  | _ => false
  end.

Definition is_alarm (e : Event) : bool :=
  match e with
  | AlarmFires => true
  | Fetch _ => false
  end.

(** The events that neither create nor need a session: storing a message
    and reading the history, and the alarm. *)
Definition sessionless (e : Event) : bool :=
  match e with
  | Fetch (POST_store _ _) | Fetch GET_history | AlarmFires => true
  | _ => false
  end.

End ChatSession.

(* ===================================================================== *)
(** ** Values of [JSON.parse] and the conversions applied to them *)
(* ===================================================================== *)

(** A parsed JSON text.  [Num] stands for the Number values (IEEE doubles)
    the parser produces.  An object lists its own properties in source
    order; of two properties with one name the later one counts. *)
#[local] Unset Elimination Schemes.
Inductive Json (Num : Type) : Type :=
| JNull
| JBool (b : bool)
| JNumber (n : Num)
| JString (s : string)
| JArray (items : list (Json Num))
| JObject (fields : list (string * Json Num)).
#[local] Set Elimination Schemes.

Arguments JNull {Num}.
Arguments JBool {Num} b.
Arguments JNumber {Num} n.
Arguments JString {Num} s.
Arguments JArray {Num} items.
Arguments JObject {Num} fields.

(** The part of the JavaScript engine the workflows rely on and the sources
    do not contain: [JSON.parse], the printing of a Number, and the strict
    equality [n === idx] of a parsed Number with an array index. *)
Record Engine (Num : Type) := {
  JSON_parse : string -> JS.Completion (Json Num);
  Number_toString : Num -> string;
  Number_is : Num -> nat -> bool
}.

Arguments JSON_parse {Num} e.
Arguments Number_toString {Num} e.
Arguments Number_is {Num} e.

Module Value.

Import JS.

Section WithEngine.

Context {Num : Type} (engine : Engine Num).

(** The own property [key] of an object, [None] for [undefined]. *)
Fixpoint own (key : string) (fields : list (string * Json Num))
  : option (Json Num) :=
  match fields with
  | [] => None
  | (k, v) :: rest =>
      match own key rest with
      | Some v' => Some v'
      | None => if String.eqb k key then Some v else None
      end
  end.

(** [v.key] for a name no prototype defines ([index], [type],
    [difficulty]): reading it off [null] raises, off a number, string,
    boolean or array gives [undefined]. *)
Definition get (v : Json Num) (key : string)
  : Completion (option (Json Num)) :=
  match v with
  | JNull => Throw TypeError
  | JObject fields => Normal (own key fields)
  | _ => Normal None
  end.

(** ToString of a parsed value.  An array prints through its [join]; an
    object goes through OrdinaryToPrimitive: an own property [toString]
    hides [Object.prototype.toString] and, coming from JSON, is not
    callable, while [valueOf] (own or inherited) yields no primitive, so
    the conversion raises a TypeError; without it the object prints as
    [[object Object]]. *)
Fixpoint ToString (v : Json Num) : Completion string :=
  match v with
  | JNull => Normal "null"
  | JBool true => Normal "true"
  | JBool false => Normal "false"
  | JNumber n => Normal (Number_toString engine n)
  | JString s => Normal s
  | JArray items =>
      cbind
        ((fix each (l : list (Json Num)) : Completion (list string) :=
            match l with
            | [] => Normal []
            | x :: rest =>
                cbind (match x with
                       | JNull => Normal EmptyString
                       | _ => ToString x
                       end)
                  (fun s => cbind (each rest) (fun ss => Normal (s :: ss)))
            end) items)
        (fun ss => Normal (join "," ss))
  | JObject fields =>
      match own "toString" fields with
      | Some _ => Throw TypeError
      | None => Normal "[object Object]"
      end
  end.

(** The element strings of [Array.prototype.join]: [null] gives the
    empty string, every other element its ToString. *)
Fixpoint element_strings (l : list (Json Num)) : Completion (list string) :=
  match l with
  | [] => Normal []
  | x :: rest =>
      cbind (match x with
             | JNull => Normal EmptyString
             | _ => ToString x
             end)
        (fun s => cbind (element_strings rest) (fun ss => Normal (s :: ss)))
  end.

(** [v.join(sep)]: on anything but an array [join] is not a function. *)
Definition Array_join (v : Json Num) (sep : string) : Completion string :=
  match v with
  | JArray items => cbind (element_strings items) (fun ss => Normal (join sep ss))
  | _ => Throw TypeError
  end.

(** Calling a string method ([toLowerCase]) on [x]: anything but a
    string raises a TypeError ([undefined] has no properties, the other
    values have no such method). *)
Definition as_string (x : option (Json Num)) : Completion string :=
  match x with
  | Some (JString s) => Normal s
  | _ => Throw TypeError
  end.

(** [x === idx] for a property value [x] and an array index. *)
Definition is_index (x : option (Json Num)) (idx : nat) : bool :=
  match x with
  | Some (JNumber n) => Number_is engine n idx
  | _ => false
  end.

(** [arr.find(c => c.index === idx)]: the first element whose [index]
    is [idx]; reading [index] off a [null] element on the way raises. *)
Fixpoint find_index (categories : list (Json Num)) (idx : nat)
  : Completion (option (Json Num)) :=
  match categories with
  | [] => Normal None
  | c :: rest =>
      cbind (get c "index") (fun x =>
        if is_index x idx then Normal (Some c) else find_index rest idx)
  end.

(** [arr.map((x, idx) => f(x, idx))] with a callback that may raise;
    [idx] counts from [start]. *)
Fixpoint map_indexed {A B : Type} (f : A -> nat -> Completion B)
  (l : list A) (start : nat) : Completion (list B) :=
  match l with
  | [] => Normal []
  | x :: rest =>
      cbind (f x start) (fun y =>
        cbind (map_indexed f rest (S start)) (fun ys => Normal (y :: ys)))
  end.

(** [arr.filter(q => typeof q === 'string' && q.length > 0)] *)
Fixpoint nonempty_strings (l : list (Json Num)) : list string :=
  match l with
  | [] => []
  | JString (String c r) :: rest => String c r :: nonempty_strings rest
  | _ :: rest => nonempty_strings rest
  end.

End WithEngine.

End Value.

(** The quotation mark, and a quoted word, for the prompts. *)
Definition dq : string := String (ascii_of_nat 34) EmptyString.
Definition quoted (s : string) : string := dq +++ s +++ dq.
Definition nl : string := String (ascii_of_nat 10) EmptyString.


(** One call [env.AI.run(model, request)] of a workflow stage, as the body
    of the stage's [try]: a rejected call raises. *)
Definition responding {A : Type} (outcome : AiOutcome)
  (k : option string -> JS.Completion A) : JS.Completion A :=
  match outcome with
  | Fails => JS.Throw JS.ModelError
  | Responds response => k response
  end.

(* ===================================================================== *)
(** ** SummaryWorkflow *)
(* ===================================================================== *)

Module SummaryWorkflow.

Import JS Value.

(** [topics] and [keyPoints] are declared [string[]], but hold whatever
    [JSON.parse] returned: they are kept as parsed values. *)
Record SummaryResult (Num : Type) := {
  summary : string;
  keyPoints : Json Num;
  topics : Json Num
}.
Arguments summary {Num} s.
Arguments keyPoints {Num} s.
Arguments topics {Num} s.

Section WithEngine.

Context {Num : Type} (engine : Engine Num).

(** The shared tail of the two JSON stages: extract the bracketed part
    of the text and parse it, or give the empty array. *)
Definition parse_array_text (text : string) : Completion (Json Num) :=
  match match_array text with
  | Some m => JSON_parse engine m
  | None => Normal (JArray [])
  end.

Definition extractTopics (run : AiRequest -> AiOutcome)
  (content title : string) : Json Num :=
  let prompt :=
    "Analyze this note and identify 3-5 main topics or concepts:

Title: " +++ title +++ "
Content:
" +++ slice0 3000 content +++ "

Return ONLY a JSON array of topic strings, e.g., ["
    +++ quoted "topic1" +++ ", " +++ quoted "topic2" +++ ", "
    +++ quoted "topic3" +++ "]" in
  try_catch
    (responding
       (run {| messages :=
                 [ {| ai_role := "system";
                      ai_content := "You are a study assistant that identifies key topics in educational notes. Return only valid JSON." |};
                   {| ai_role := "user"; ai_content := prompt |} ];
               max_tokens := 200;
               temperature := 3 # 10 |})
       (fun response =>
          let topicsText := or_default response "[]" in
          parse_array_text topicsText))
    (JArray [JString "General"]).

(** The prompt is built before the [try]: [topics.join(', ')] raises to
    the caller when it raises. *)
Definition generateSummary (run : AiRequest -> AiOutcome)
  (content title : string) (topics : Json Num) : Completion string :=
  cbind (Array_join engine topics ", ") (fun joined =>
    let prompt :=
      "Generate a concise 2-3 paragraph summary of this note:

Title: " +++ title +++ "
Main Topics: " +++ joined +++ "
Content:
" +++ slice0 4000 content +++ "

Write a clear, concise summary that captures the essential information. Use proper formatting with markdown." in
    Normal
      (try_catch
         (responding
            (run {| messages :=
                      [ {| ai_role := "system";
                           ai_content := "You are a study assistant that creates clear, concise summaries of educational notes." |};
                        {| ai_role := "user"; ai_content := prompt |} ];
                    max_tokens := 400;
                    temperature := 5 # 10 |})
            (fun response =>
               Normal (or_default response "Unable to generate summary.")))
         "Error generating summary.")).

Definition extractKeyPoints (run : AiRequest -> AiOutcome)
  (content summary : string) : Json Num :=
  let prompt :=
    "Based on this note summary, extract 5-7 key points or takeaways:

Summary:
" +++ summary +++ "

Original Content (for context):
" +++ slice0 2000 content +++ "

Return ONLY a JSON array of key point strings, e.g., ["
    +++ quoted "point1" +++ ", " +++ quoted "point2" +++ ", "
    +++ quoted "point3" +++ "]" in
  try_catch
    (responding
       (run {| messages :=
                 [ {| ai_role := "system";
                      ai_content := "You are a study assistant that identifies key takeaways. Return only valid JSON." |};
                   {| ai_role := "user"; ai_content := prompt |} ];
               max_tokens := 300;
               temperature := 3 # 10 |})
       (fun response =>
          let pointsText := or_default response "[]" in
          parse_array_text pointsText))
    (JArray []).

(** [run]: the three stages in order; the [n]-th stage makes the [n]-th
    model call of the run. *)
Definition run (AI : Invoker) (noteContent noteTitle : string)
  : Completion (SummaryResult Num) :=
  let topics := extractTopics (AI 0%nat) noteContent noteTitle in
  cbind (generateSummary (AI 1%nat) noteContent noteTitle topics)
    (fun summary =>
       let keyPoints := extractKeyPoints (AI 2%nat) noteContent summary in
       Normal {| summary := summary;
                 keyPoints := keyPoints;
                 topics := topics |}).

End WithEngine.

End SummaryWorkflow.

(* ===================================================================== *)
(** ** QuestionsWorkflow *)
(* ===================================================================== *)

Module QuestionsWorkflow.

Import JS Value.

Record StudyQuestion := {
  question : string;
  type : string;
  difficulty : string
}.

Record QuestionsResult := {
  questions : list StudyQuestion;
  totalCount : nat
}.

Definition validateType (type : string) : string :=
  let normalized := trim (toLowerCase type) in
  if includes ["recall"; "comprehension"; "application"] normalized
  then normalized
  else "comprehension".

Definition validateDifficulty (difficulty : string) : string :=
  let normalized := trim (toLowerCase difficulty) in
  if includes ["easy"; "medium"; "hard"] normalized
  then normalized
  else "medium".

(** A question labelled with the default pair. *)
Definition default_question (q : string) : StudyQuestion :=
  {| question := q; type := "comprehension"; difficulty := "medium" |}.

(** The decimal digits of [i + 1] in the numbered list of the prompt. *)
Definition decimal (n : nat) : string :=
  DecimalString.NilEmpty.string_of_uint (Nat.to_uint n).

Section WithEngine.

Context {Num : Type} (engine : Engine Num).

Definition analyzeContentDifficulty (run : AiRequest -> AiOutcome)
  (content : string) : string :=
  let prompt :=
    "Analyze the difficulty level of this educational content. 
Consider: technical terminology, concept complexity, prerequisites needed.

Content:
" +++ slice0 2000 content +++ "

Return ONLY one word: " +++ quoted "beginner" +++ ", "
    +++ quoted "intermediate" +++ ", or " +++ quoted "advanced" in
  try_catch
    (responding
       (run {| messages :=
                 [ {| ai_role := "system";
                      ai_content := "You analyze educational content difficulty. Return only one word." |};
                   {| ai_role := "user"; ai_content := prompt |} ];
               max_tokens := 10;
               temperature := 3 # 10 |})
       (fun response =>
          let level := trim (toLowerCase (or_default response "intermediate")) in
          if includes ["beginner"; "intermediate"; "advanced"] level
          then Normal level
          else Normal "intermediate"))
    "intermediate".

Definition generateQuestions (run : AiRequest -> AiOutcome)
  (content title difficulty : string) : list string :=
  let prompt :=
    "Generate 7-10 study questions for this note. Include a mix of:
- Recall questions (testing memory)
- Comprehension questions (testing understanding)
- Application questions (testing ability to use concepts)

Title: " +++ title +++ "
Difficulty Level: " +++ difficulty +++ "
Content:
" +++ slice0 4000 content +++ "

Return ONLY a JSON array of question strings, e.g., ["
    +++ quoted "Question 1?" +++ ", " +++ quoted "Question 2?" +++ ", "
    +++ quoted "Question 3?" +++ "]" in
  try_catch
    (responding
       (run {| messages :=
                 [ {| ai_role := "system";
                      ai_content := "You generate study questions for educational content. Return only valid JSON." |};
                   {| ai_role := "user"; ai_content := prompt |} ];
               max_tokens := 600;
               temperature := 6 # 10 |})
       (fun response =>
          let questionsText := or_default response "[]" in
          match match_array questionsText with
          | Some m =>
              cbind (JSON_parse engine m) (fun questions =>
                match questions with
                | JArray items => Normal (nonempty_strings items)
                | _ => Throw TypeError    (* [filter] is not a function *)
                end)
          | None => Normal []
          end))
    [].

(** The object used when [find] gives [undefined]. *)
Definition default_category : Json Num :=
  JObject [("type", JString "comprehension");
           ("difficulty", JString "medium")].

(** The callback of [questions.map] inside the [try]. *)
Definition categorize (categories : list (Json Num))
  (question : string) (idx : nat) : Completion StudyQuestion :=
  cbind (find_index engine categories idx) (fun found =>
    let category :=
      match found with
      | Some c => c
      | None => default_category
      end in
    cbind (get category "type") (fun t =>
    cbind (as_string t) (fun t =>
    cbind (get category "difficulty") (fun d =>
    cbind (as_string d) (fun d =>
      Normal {| question := question;
                type := validateType t;
                difficulty := validateDifficulty d |}))))).

Definition with_defaults (questions : list string) : list StudyQuestion :=
  map (fun question =>
         {| question := question;
            type := "comprehension";
            difficulty := "medium" |}) questions.

Definition numbered (questions : list string) : list string :=
  (fix go (l : list string) (i : nat) : list string :=
     match l with
     | [] => []
     | q :: rest => (decimal (i + 1) +++ ". " +++ q) :: go rest (S i)
     end) questions 0%nat.

Definition categorizeQuestions (run : AiRequest -> AiOutcome)
  (questions : list string) : list StudyQuestion :=
  if (length questions =? 0)%nat then []
  else
    let prompt :=
      "Categorize each study question by TYPE and DIFFICULTY.

Questions:
" +++ join nl (numbered questions) +++ "

For each question, determine:
TYPE: " +++ quoted "recall" +++ " (memory/facts), " +++ quoted "comprehension"
      +++ " (understanding), or " +++ quoted "application" +++ " (using concepts)
DIFFICULTY: " +++ quoted "easy" +++ ", " +++ quoted "medium" +++ ", or "
      +++ quoted "hard" +++ "

Return ONLY a JSON array of objects like:
[
  {" +++ quoted "index" +++ ": 0, " +++ quoted "type" +++ ": " +++ quoted "recall"
      +++ ", " +++ quoted "difficulty" +++ ": " +++ quoted "easy" +++ "},
  {" +++ quoted "index" +++ ": 1, " +++ quoted "type" +++ ": "
      +++ quoted "comprehension" +++ ", " +++ quoted "difficulty" +++ ": "
      +++ quoted "medium" +++ "}
]" in
    (* [Some l]: the [try] returned [l]; [None]: control left the [try]
       without a [return] (no match, or an error caught and logged) and
       reaches the fallback below it. *)
    let attempt : option (list StudyQuestion) :=
      try_catch
        (responding
           (run {| messages :=
                     [ {| ai_role := "system";
                          ai_content := "You categorize study questions. Return only valid JSON." |};
                       {| ai_role := "user"; ai_content := prompt |} ];
                   max_tokens := 400;
                   temperature := 2 # 10 |})
           (fun response =>
              let categoriesText := or_default response "[]" in
              match match_array categoriesText with
              | Some m =>
                  cbind (JSON_parse engine m) (fun categories =>
                    match categories with
                    | JArray items =>
                        cbind (map_indexed (categorize items) questions 0%nat)
                          (fun l => Normal (Some l))
                    | _ => Throw TypeError   (* [find] is not a function *)
                    end)
              | None => Normal None
              end))
        None in
    match attempt with
    | Some l => l
    | None => with_defaults questions
    end.

(** [run]: the three stages in order.  Every expression of a stage that
    can raise sits inside the stage's [try], and what is interpolated into
    the prompts are strings, so [run] returns a result for every model. *)
Definition run (AI : Invoker) (noteContent noteTitle : string)
  : QuestionsResult :=
  let difficulty := analyzeContentDifficulty (AI 0%nat) noteContent in
  let questions :=
    generateQuestions (AI 1%nat) noteContent noteTitle difficulty in
  let categorizedQuestions := categorizeQuestions (AI 2%nat) questions in
  {| questions := categorizedQuestions;
     totalCount := length categorizedQuestions |}.

(** The array of categories a model answer holds, when it holds one:
    the bracketed part of the text parsed to an array. *)
Definition categories_of (outcome : AiOutcome) : option (list (Json Num)) :=
  match outcome with
  | Fails => None
  | Responds response =>
      match match_array (or_default response "[]") with
      | None => None
      | Some m =>
          match JSON_parse engine m with
          | Normal (JArray items) => Some items
          | _ => None
          end
      end
  end.

(** A category covers the question at [idx] when it is an object whose
    [index] is [idx]. *)
Definition covers (idx : nat) (c : Json Num) : bool :=
  match c with
  | JObject fields => is_index engine (own "index" fields) idx
  | _ => false
  end.

End WithEngine.

End QuestionsWorkflow.

(* ===================================================================== *)
(** ** A concrete engine, to run the workflows on concrete model outputs *)
(* ===================================================================== *)

(** The statements below hold for every [Engine].  This one follows the JSON
    grammar of ECMA-404 and keeps a number as the exact decimal it is
    written as; it is what the examples are evaluated with.  Two limits: a
    [\u] escape above U+00FF leaves the 8-bit strings and is rejected, and
    a literal of more than 15 significant digits is not rounded the way a
    double is. *)
Module Decimal.

(** The number [mant * 10 ^ expo]. *)
Record t := { mant : Z; expo : Z }.

Definition is_nat (d : t) (idx : nat) : bool :=
  if (0 <=? expo d)%Z
  then (mant d * 10 ^ expo d =? Z.of_nat idx)%Z
  else (mant d =? Z.of_nat idx * 10 ^ (- expo d))%Z.

Definition of_Z (z : Z) : string :=
  DecimalString.NilZero.string_of_int (Z.to_int z).

Fixpoint strip_zeros (s : string) : string :=
  match s with
  | EmptyString => EmptyString
  | String c r =>
      match strip_zeros r with
      | EmptyString => if Ascii.eqb c "0" then EmptyString else String c EmptyString
      | r' => String c r'
      end
  end.

Fixpoint zeros (n : nat) : string :=
  match n with
  | O => EmptyString
  | S m => String "0" (zeros m)
  end.

Definition toString (d : t) : string :=
  if (0 <=? expo d)%Z then of_Z (mant d * 10 ^ expo d)
  else
    let k := (- expo d)%Z in
    let a := Z.abs (mant d) in
    let q := (a / 10 ^ k)%Z in
    let r := (a mod 10 ^ k)%Z in
    let sign := if (mant d <? 0)%Z then "-" else EmptyString in
    if (r =? 0)%Z then (if (q =? 0)%Z then "0" else sign +++ of_Z q)
    else
      let digits := of_Z r in
      let frac := zeros (Z.to_nat k - String.length digits) +++ digits in
      sign +++ of_Z q +++ "." +++ strip_zeros frac.

End Decimal.

Module Parser.

Import JS.

Definition is_ws (c : ascii) : bool :=
  let n := nat_of_ascii c in
  ((n =? 32) || (n =? 9) || (n =? 10) || (n =? 13))%nat.

Fixpoint skip_ws (s : string) : string :=
  match s with
  | EmptyString => EmptyString
  | String c r => if is_ws c then skip_ws r else s
  end.

Definition digit (c : ascii) : option Z :=
  let n := nat_of_ascii c in
  if ((48 <=? n) && (n <=? 57))%nat then Some (Z.of_nat (n - 48)) else None.

(** The digits at the front of [s], added to [acc], and how many. *)
Fixpoint digits (s : string) (acc count : Z) : Z * Z * string :=
  match s with
  | EmptyString => (acc, count, s)
  | String c r =>
      match digit c with
      | Some d => digits r (acc * 10 + d)%Z (count + 1)%Z
      | None => (acc, count, s)
      end
  end.

Definition integer_part (s : string) : option (Z * string) :=
  match s with
  | String "0" r => Some (0%Z, r)
  | _ =>
      let '(n, count, r) := digits s 0%Z 0%Z in
      if (count =? 0)%Z then None else Some (n, r)
  end.

Definition fraction_part (n : Z) (s : string) : option (Z * Z * string) :=
  match s with
  | String "." r =>
      let '(m, count, r') := digits r n 0%Z in
      if (count =? 0)%Z then None else Some (m, count, r')
  | _ => Some (n, 0%Z, s)
  end.

Definition exponent_part (s : string) : option (Z * string) :=
  let unsigned (sign : Z) (r : string) :=
    let '(e, count, r') := digits r 0%Z 0%Z in
    if (count =? 0)%Z then None else Some ((sign * e)%Z, r') in
  match s with
  | String "e" r | String "E" r =>
      match r with
      | String "+" r' => unsigned 1%Z r'
      | String "-" r' => unsigned (-1)%Z r'
      | _ => unsigned 1%Z r
      end
  | _ => Some (0%Z, s)
  end.

Definition number (s : string) : option (Decimal.t * string) :=
  let '(sign, s) :=
    match s with
    | String "-" r => ((-1)%Z, r)
    | _ => (1%Z, s)
    end in
  match integer_part s with
  | None => None
  | Some (n, r) =>
      match fraction_part n r with
      | None => None
      | Some (m, k, r) =>
          match exponent_part r with
          | None => None
          | Some (e, r) =>
              Some ({| Decimal.mant := (sign * m)%Z;
                       Decimal.expo := (e - k)%Z |}, r)
          end
      end
  end.

Definition hex (c : ascii) : option nat :=
  let n := nat_of_ascii c in
  if ((48 <=? n) && (n <=? 57))%nat then Some (n - 48)%nat
  else if ((65 <=? n) && (n <=? 70))%nat then Some (n - 55)%nat
  else if ((97 <=? n) && (n <=? 102))%nat then Some (n - 87)%nat
  else None.

Definition escape (e : ascii) : option ascii :=
  let n := nat_of_ascii e in
  if (n =? 34)%nat then Some e                       (* quotation mark *)
  else if (n =? 92)%nat then Some e                  (* reverse solidus *)
  else if (n =? 47)%nat then Some e                  (* solidus *)
  else if (n =? 98)%nat then Some (ascii_of_nat 8)   (* b *)
  else if (n =? 102)%nat then Some (ascii_of_nat 12) (* f *)
  else if (n =? 110)%nat then Some (ascii_of_nat 10) (* n *)
  else if (n =? 114)%nat then Some (ascii_of_nat 13) (* r *)
  else if (n =? 116)%nat then Some (ascii_of_nat 9)  (* t *)
  else None.

Definition cons_unit (c : ascii) (r : option (string * string))
  : option (string * string) :=
  match r with
  | Some (s, rest) => Some (String c s, rest)
  | None => None
  end.

(** The units of a string literal after its opening quotation mark. *)
Fixpoint chars (s : string) : option (string * string) :=
  match s with
  | EmptyString => None
  | String c r =>
      let n := nat_of_ascii c in
      if (n =? 34)%nat then Some (EmptyString, r)
      else if (n =? 92)%nat then
        match r with
        | EmptyString => None
        | String e r' =>
            match escape e with
            | Some x => cons_unit x (chars r')
            | None =>
                if Ascii.eqb e "u" then
                  match r' with
                  | String a (String b (String c (String d r''))) =>
                      match hex a, hex b, hex c, hex d with
                      | Some 0%nat, Some 0%nat, Some h, Some l =>
                          cons_unit (ascii_of_nat (16 * h + l)) (chars r'')
                      | _, _, _, _ => None
                      end
                  | _ => None
                  end
                else None
            end
        end
      else if (n <? 32)%nat then None
      else cons_unit c (chars r)
  end.

Fixpoint strip_prefix (p s : string) : option string :=
  match p, s with
  | EmptyString, _ => Some s
  | String a p', String b s' => if Ascii.eqb a b then strip_prefix p' s' else None
  | _, _ => None
  end.

Definition J := Json Decimal.t.

Fixpoint value (fuel : nat) (s : string) : option (J * string) :=
  match fuel with
  | O => None
  | S fuel =>
      match skip_ws s with
      | EmptyString => None
      | String c r =>
          if Ascii.eqb c "[" then
            match skip_ws r with
            | String "]" r' => Some (JArray [], r')
            | _ =>
                match elements fuel r with
                | Some (l, r') => Some (JArray l, r')
                | None => None
                end
            end
          else if Ascii.eqb c "{" then
            match skip_ws r with
            | String "}" r' => Some (JObject [], r')
            | _ =>
                match members fuel r with
                | Some (l, r') => Some (JObject l, r')
                | None => None
                end
            end
          else if (nat_of_ascii c =? 34)%nat then
            match chars r with
            | Some (str, r') => Some (JString str, r')
            | None => None
            end
          else
            match strip_prefix "true" (String c r),
                  strip_prefix "false" (String c r),
                  strip_prefix "null" (String c r) with
            | Some r', _, _ => Some (JBool true, r')
            | _, Some r', _ => Some (JBool false, r')
            | _, _, Some r' => Some (JNull, r')
            | _, _, _ =>
                match number (String c r) with
                | Some (d, r') => Some (JNumber d, r')
                | None => None
                end
            end
      end
  end

with elements (fuel : nat) (s : string) : option (list J * string) :=
  match fuel with
  | O => None
  | S fuel =>
      match value fuel s with
      | None => None
      | Some (v, r) =>
          match skip_ws r with
          | String "," r' =>
              match elements fuel r' with
              | Some (l, r'') => Some (v :: l, r'')
              | None => None
              end
          | String "]" r' => Some ([v], r')
          | _ => None
          end
      end
  end

with members (fuel : nat) (s : string) : option (list (string * J) * string) :=
  match fuel with
  | O => None
  | S fuel =>
      match skip_ws s with
      | String c r =>
          if (nat_of_ascii c =? 34)%nat then
            match chars r with
            | None => None
            | Some (key, r) =>
                match skip_ws r with
                | String ":" r =>
                    match value fuel r with
                    | None => None
                    | Some (v, r) =>
                        match skip_ws r with
                        | String "," r' =>
                            match members fuel r' with
                            | Some (l, r'') => Some ((key, v) :: l, r'')
                            | None => None
                            end
                        | String "}" r' => Some ([(key, v)], r')
                        | _ => None
                        end
                    end
                | _ => None
                end
            end
          else None
      | EmptyString => None
      end
  end.

Definition parse (text : string) : Completion J :=
  match value (2 * String.length text + 2) text with
  | Some (v, rest) =>
      match skip_ws rest with
      | EmptyString => Normal v
      | _ => Throw SyntaxError
      end
  | None => Throw SyntaxError
  end.

Definition engine : Engine Decimal.t :=
  {| JSON_parse := parse;
     Number_toString := Decimal.toString;
     Number_is := Decimal.is_nat |}.

End Parser.

(* ===================================================================== *)
(** ** Concrete inputs used by the examples *)
(* ===================================================================== *)

Module Sample.

Import ChatSession.

(** A clock that advances one millisecond per reading. *)
Definition clock (n : nat) : Z := (1700000000000 + Z.of_nat n)%Z.

(** A clock standing a full day later. *)
Definition late_clock (n : nat) : Z := (clock n + twentyFourHours)%Z.

Definition failing : Invoker := fun _ _ => Fails.

Definition answering (text : string) : Invoker :=
  fun _ _ => Responds (Some text).

Definition session : SessionData :=
  {| noteId := "note-1";
     noteContext := "Photosynthesis notes";
     lastActivity := clock 0 |}.

(** The actor after [/init] on a fresh object: its [sessionData] is
    [session]. *)
Definition initialized : Actor :=
  snd (fetch clock failing (POST_init "note-1" (Some "Photosynthesis notes")) fresh).

Definition stored (i : nat) : ChatMessage :=
  {| role := if Nat.even i then "user" else "assistant";
     content := "message " +++ QuestionsWorkflow.decimal i;
     timestamp := clock i |}.

(** Twelve stored messages, [stored 0] the oldest. *)
Definition twelve : list ChatMessage := map stored (seq 0 12).

Definition with_history (l : list ChatMessage) (a : Actor) : Actor :=
  {| sessionData := sessionData a;
     storage := {| stored_sessionData := stored_sessionData (storage a);
                   stored_messages := Some l;
                   stored_alarm := stored_alarm (storage a) |};
     clock_reads := clock_reads a;
     sent := sent a |}.

(** An initialized session holding the twelve messages. *)
Definition busy : Actor := with_history twelve initialized.

(** Sixty [/store] requests in a row. *)
Definition sixty_stores : list Request :=
  map (fun i => POST_store (Some "assistant")
                  (Some ("result " +++ QuestionsWorkflow.decimal i)))
      (seq 0 60).

(** Model outputs for the workflows. *)
Definition three_questions : string :=
  "[" +++ quoted "What is a cell?" +++ ", " +++ quoted "Why do cells divide?"
  +++ ", " +++ quoted "How would you stain one?" +++ "]".

Definition category (index type difficulty : string) : string :=
  "{" +++ quoted "index" +++ ": " +++ index +++ ", "
  +++ quoted "type" +++ ": " +++ quoted type +++ ", "
  +++ quoted "difficulty" +++ ": " +++ quoted difficulty +++ "}".

(** A categorization that covers the indices 0 and 2 only. *)
Definition two_categories : string :=
  "Here you go: [" +++ category "0" "Recall" "easy" +++ ", "
  +++ category "2" "application" " HARD " +++ "]".

Definition questions_model : Invoker :=
  fun n _ =>
    match n with
    | 0%nat => Responds (Some "Intermediate")
    | 1%nat => Responds (Some three_questions)
    | _ => Responds (Some two_categories)
    end.

(** A topics answer holding an object with a property named [toString]. *)
Definition odd_topics : string := "[{" +++ quoted "toString" +++ ":1}]".

Definition odd_model : Invoker :=
  fun n _ =>
    match n with
    | 0%nat => Responds (Some odd_topics)
    | _ => Responds (Some "fine")
    end.

End Sample.

(* ===================================================================== *)
(** ** Runs of the session actor *)
(* ===================================================================== *)

Module SessionTrace.

Import ChatSession.

(** The events that can reach the model: [/message] requests. *)
Definition is_message (e : Event) : bool :=
  match e with
  | Fetch (POST_message _ _) => true
  | _ => false
  end.

(** How many [/message] requests a run holds. *)
Definition message_count (events : list Event) : nat :=
  length (filter is_message events).

End SessionTrace.

(* ===================================================================== *)
(** ** Parsed values that print *)
(* ===================================================================== *)

Module Printing.

Import JS Value.

Section WithNumbers.

Context {Num : Type}.




End WithNumbers.

End Printing.

(* ===================================================================== *)
(** ** Where a unit occurs in a string *)
(* ===================================================================== *)

Module Units.

(** Whether the unit [c] occurs in [s]. *)
Fixpoint occurs (c : ascii) (s : string) : bool :=
  match s with
  | EmptyString => false
  | String x r => Ascii.eqb x c || occurs c r
  end.

End Units.

(* ===================================================================== *)
(** ** More concrete inputs *)
(* ===================================================================== *)

Module MoreSamples.

Import ChatSession Sample.

(** A clock that jumps a full day ahead after its [k]-th reading. *)
Definition jump_after (k : nat) (n : nat) : Z :=
  if (n <=? k)%nat then clock n else late_clock n.

(** A categorization whose second entry has a number where the type
    should be. *)
Definition broken_categories : string :=
  "[" +++ category "0" "recall" "easy" +++ ", {"
  +++ quoted "index" +++ ": 1, " +++ quoted "type" +++ ": 5, "
  +++ quoted "difficulty" +++ ": " +++ quoted "easy" +++ "}]".

Definition broken_model : AiRequest -> AiOutcome :=
  fun _ => Responds (Some broken_categories).

(** A categorization with two entries for the index 0. *)
Definition double_categories : string :=
  "[" +++ category "1" "recall" "easy" +++ ", "
  +++ category "0" " Application" "HARD" +++ ", "
  +++ category "0" "recall" "easy" +++ "]".

Definition double_model : AiRequest -> AiOutcome :=
  fun _ => Responds (Some double_categories).

Definition two_questions : list string :=
  ["What is a cell?"; "Why do cells divide?"].

(** The arrays the two categorizations parse to. *)
Definition parsed_items (text : string) : list Parser.J :=
  match Parser.parse text with
  | JS.Normal (JArray items) => items
  | _ => []
  end.

Definition broken_items : list Parser.J := parsed_items broken_categories.

Definition double_items : list Parser.J := parsed_items double_categories.

End MoreSamples.

(* ===================================================================== *)
(** ** The Worker: the handlers of [index.ts] in front of the sessions *)
(* ===================================================================== *)

Module Worker.

Import JS.

(** [env.CHAT_SESSIONS]: one session object per name ([idFromName]); an
    object nobody addressed yet is a fresh one. *)
Definition Namespace := string -> ChatSession.Actor.

Definition no_sessions : Namespace := fun _ => ChatSession.fresh.

Definition with_actor (ns : Namespace) (name : string) (a : ChatSession.Actor)
  : Namespace :=
  fun n => if String.eqb n name then a else ns n.

(** A row of the [notes] table as the workflows' handlers select it; a
    column holding NULL is [None]. *)
Record NoteRow := {
  id : string;
  title : option string;
  content : option string
}.

(** What the handlers put into [jsonResponse]. *)
Inductive Payload (Num : Type) :=
| Failure (error : string)
    (* { error } *)
| Caught (e : Error) (fallback : string)
    (* { error: err.message || fallback } *)
| ChatReply (reply : option string)
            (history : option (list ChatSession.ChatMessage))
    (* { reply: data.reply, history: data.history }; a field that is
       [undefined] is left out by [JSON.stringify] *)
| ChatHistory (messages : list ChatSession.ChatMessage)
    (* { messages } *)
| Done (success : bool)
    (* { success } *)
| SummaryReady (summary : string) (keyPoints topics : Json Num)
               (markdown : string).
    (* { success: true, summary, keyPoints, topics, markdown } *)

Arguments Failure {Num} error.
Arguments Caught {Num} e fallback.
Arguments ChatReply {Num} reply history.
Arguments ChatHistory {Num} messages.
Arguments Done {Num} success.
Arguments SummaryReady {Num} summary keyPoints topics markdown.

Record Response (Num : Type) := { status : nat; payload : Payload Num }.
Arguments status {Num} r.
Arguments payload {Num} r.

Definition jsonResponse {Num : Type} (obj : Payload Num) (status : nat)
  : Response Num :=
  {| status := status; payload := obj |}.

(** [await response.json()] on a session's response: its one plain-text
    body, 'Not found', is no JSON. *)
Definition json (response : ChatSession.Response)
  : Completion ChatSession.Body :=
  match ChatSession.body response with
  | ChatSession.NotFound => Throw SyntaxError
  | b => Normal b
  end.



Definition data_messages (data : ChatSession.Body)
  : list ChatSession.ChatMessage :=
  match data with
  | ChatSession.Messages l => l
  | _ => []
  end.

Definition data_success (data : ChatSession.Body) : bool :=
  match data with
  | ChatSession.Success => true
  | _ => false
  end.

Section Handlers.

Context {Num : Type} (engine : Engine Num).

(** The clock and the model as the object named [name] meets them. *)
Variable Date_now : string -> nat -> Z.
Variable AI : string -> Invoker.

(** [env.DB.prepare(...).bind(noteId).first()]: the row, [null], or an
    error of the database. *)
Variable DB_first : string -> Completion (option NoteRow).

(** [try { body } catch (err) { handler(err) }] *)
Definition try_with {A : Type} (body : Completion A) (handler : Error -> A) : A :=
  match body with
  | Normal a => a
  | Throw e => handler e
  end.

(** The handlers act on the sessions. *)
Definition W (A : Type) : Type := Namespace -> A * Namespace.

Definition ret {A : Type} (x : A) : W A := fun ns => (x, ns).

Definition bind {A B : Type} (m : W A) (k : A -> W B) : W B :=
  fun ns => let '(x, ns') := m ns in k x ns'.

Notation "x <- m ;; k" := (bind m (fun x => k))
  (at level 100, m at next level, right associativity).

(** [stub.fetch(url, init)] on the object named [name]: the object serves
    the request.  (A failure of the platform to reach the object is not
    part of the model.) *)
Definition stub_fetch (name : string) (request : ChatSession.Request)
  : W ChatSession.Response :=
  fun ns =>
    let '(response, a) :=
      ChatSession.fetch (Date_now name) (AI name) request (ns name) in
    (response, with_actor ns name a).


Definition handleChatHistory (noteId : string) : W (Response Num) :=
  response <- stub_fetch noteId ChatSession.GET_history ;;
  ret (try_with
         (cbind (json response) (fun data =>
            Normal (jsonResponse (ChatHistory (data_messages data)) 200)))
         (fun err => jsonResponse (Caught err "Unknown error") 500)).

Definition handleClearChat (noteId : string) : W (Response Num) :=
  response <- stub_fetch noteId ChatSession.POST_clear ;;
  ret (try_with
         (cbind (json response) (fun data =>
            Normal (jsonResponse (Done (data_success data)) 200)))
         (fun err => jsonResponse (Caught err "Unknown error") 500)).

Definition handleStoreMessage (noteId role content : option string)
  : W (Response Num) :=
  if falsy noteId || falsy role || falsy content then
    ret (jsonResponse (Failure "Missing noteId, role, or content") 400)
  else
    response <- stub_fetch (the noteId) (ChatSession.POST_store role content) ;;
    ret (try_with
           (cbind (json response) (fun data =>
              Normal (jsonResponse (Done (data_success data)) 200)))
           (fun err => jsonResponse (Caught err "Unknown error") 500)).


End Handlers.

End Worker.

(* ===================================================================== *)
(** ** The Worker's router: [fetch] of [index.ts] *)
(* ===================================================================== *)

Module Router.

Import JS.

(** [s.startsWith(p)] and [s.endsWith(p)]. *)
Definition startsWith (s p : string) : bool := String.prefix p s.

Fixpoint endsWith (s p : string) : bool :=
  String.eqb s p ||
  match s with
  | EmptyString => false
  | String _ r => endsWith r p
  end.

(** [s.split(c)] for a separator of one unit: the pieces between the
    separators, one more than there are separators. *)
Fixpoint split (c : ascii) (s : string) : list string :=
  match s with
  | EmptyString => [EmptyString]
  | String x r =>
      if Ascii.eqb x c then EmptyString :: split c r
      else match split c r with
           | piece :: pieces => String x piece :: pieces
           | [] => [String x EmptyString]
           end
  end.

(** [s.replace(p, '')] for a string [p]: the first occurrence of [p] is
    taken out. *)
Fixpoint remove_first (p s : string) : string :=
  if String.prefix p s
  then substring (String.length p) (String.length s - String.length p) s
  else match s with
       | EmptyString => EmptyString
       | String x r => String x (remove_first p r)
       end.

(** Where a request goes: the handler called with its arguments, or the
    response given on the spot. *)
Inductive Route :=
| Preflight                    (* 204 with the CORS headers *)
| Banner                       (* "Notex backend up" *)
| Chat                         (* handleChat(request, env, ctx) *)
| ChatHistory (noteId : string)
| ChatClear (noteId : string)
| ChatStore                    (* handleStoreMessage(request, env) *)
| ImageUpload
| ImageGet (filename : string)
| GenerateSummary (id : string)
| GenerateQuestions (id : string)
| ListNotes
| CreateNote
| GetNote (id : string)
| UpdateNote (id : string)
| DeleteNote (id : string)
| BadRequest (error : string)  (* jsonResponse({ error }, 400) *)
| NotFound                     (* 404 'Not found' *)
| Uncaught.                    (* a URIError leaves [fetch] *)

Section WithDecoder.

(** [decodeURIComponent], [None] when it raises a URIError. *)
Variable decodeURIComponent : string -> option string.

(** The request as [fetch] looks at it: the method, the path of the URL
    and its query parameter [noteId]. *)
Definition notes_by_id (method pathname : string) : Route :=
  if startsWith pathname "/api/notes/" then
    if endsWith pathname "/summary" || endsWith pathname "/questions" then
      NotFound
    else
      match decodeURIComponent (remove_first "/api/notes/" pathname) with
      | None => Uncaught
      | Some id =>
          if falsy (Some id) then BadRequest "Missing note id"
          else if String.eqb method "GET" then GetNote id
          else if String.eqb method "PUT" then UpdateNote id
          else if String.eqb method "DELETE" then DeleteNote id
          else NotFound
      end
  else NotFound.

Definition notes_collection (method pathname : string) : Route :=
  if String.eqb pathname "/api/notes" && String.eqb method "GET" then ListNotes
  else if String.eqb pathname "/api/notes" && String.eqb method "POST" then CreateNote
  else notes_by_id method pathname.

Definition workflows (method pathname : string) : Route :=
  if startsWith pathname "/api/notes/" && endsWith pathname "/summary"
     && String.eqb method "POST" then
    let pathParts := split "/" pathname in
    let id := nth_error pathParts 3 in
    if falsy id then BadRequest "Missing note id"
    else GenerateSummary (the id)
  else if startsWith pathname "/api/notes/" && endsWith pathname "/questions"
          && String.eqb method "POST" then
    let pathParts := split "/" pathname in
    let id := nth_error pathParts 3 in
    if falsy id then BadRequest "Missing note id"
    else GenerateQuestions (the id)
  else notes_collection method pathname.

Definition images (method pathname : string) : Route :=
  if startsWith pathname "/api/images/" then
    match decodeURIComponent (remove_first "/api/images/" pathname) with
    | None => Uncaught
    | Some filename =>
        if falsy (Some filename) then BadRequest "Missing filename"
        else if String.eqb method "GET" then ImageGet filename
        else workflows method pathname
    end
  else workflows method pathname.

Definition route (method pathname : string) (noteId : option string) : Route :=
  if String.eqb method "OPTIONS" then Preflight
  else if String.eqb pathname "/" then Banner
  else if String.eqb pathname "/api/chat" && String.eqb method "POST" then Chat
  else if String.eqb pathname "/api/chat/history" && String.eqb method "GET" then
    if falsy noteId then BadRequest "Missing noteId"
    else ChatHistory (the noteId)
  else if String.eqb pathname "/api/chat/clear" && String.eqb method "POST" then
    if falsy noteId then BadRequest "Missing noteId"
    else ChatClear (the noteId)
  else if String.eqb pathname "/api/chat/store" && String.eqb method "POST" then
    ChatStore
  else if String.eqb pathname "/api/upload" && String.eqb method "POST" then
    ImageUpload
  else images method pathname.

End WithDecoder.

End Router.

(* ===================================================================== *)
(** * Properties *)
(* ===================================================================== *)

(** ** Slices *)

Module SliceFacts.

Import JS.

Lemma slice_last_length {A : Type} (n : nat) (l : list A) :
  length (slice_last n l) = Nat.min n (length l).
Proof. unfold slice_last. rewrite length_skipn. lia. Qed.

Lemma slice_last_bound {A : Type} (n : nat) (l : list A) :
  (length (slice_last n l) <= n)%nat.
Proof. rewrite slice_last_length. lia. Qed.

Lemma slice_last_all {A : Type} (n : nat) (l : list A) :
  (length l <= n)%nat -> slice_last n l = l.
Proof.
  intros H. unfold slice_last.
  replace (length l - n)%nat with 0%nat by lia. reflexivity.
Qed.

(** Trimming before an append does not change the trimmed result. *)
Lemma slice_last_app {A : Type} (n : nat) (l x : list A) :
  slice_last n (slice_last n l ++ x) = slice_last n (l ++ x).
Proof.
  destruct (Nat.le_gt_cases (length l) n) as [Hle | Hgt].
  - rewrite (slice_last_all n l Hle). reflexivity.
  - unfold slice_last at 1 3.
    rewrite !length_app, slice_last_length, !skipn_app.
    unfold slice_last. rewrite length_skipn.
    rewrite skipn_skipn.
    replace (Nat.min n (length l) + length x - n + (length l - n))%nat
      with (length l + length x - n)%nat by lia.
    replace (Nat.min n (length l) + length x - n
             - (length l - (length l - n)))%nat
      with (length l + length x - n - length l)%nat by lia.
    reflexivity.
Qed.

Lemma slice_last_map {A B : Type} (f : A -> B) (n : nat) (l : list A) :
  map f (slice_last n l) = slice_last n (map f l).
Proof. unfold slice_last. rewrite length_map. symmetry. apply skipn_map. Qed.

(** The last [n + 1] of a list with one element pushed are the last [n]
    of the list and that element. *)
Lemma slice_last_push {A : Type} (n : nat) (l : list A) (x : A) :
  slice_last (S n) (l ++ [x]) = slice_last n l ++ [x].
Proof.
  unfold slice_last. rewrite length_app, skipn_app. simpl.
  replace (length l + 1 - S n)%nat with (length l - n)%nat by lia.
  replace (length l - n - length l)%nat with 0%nat by lia.
  reflexivity.
Qed.

Lemma slice_last_suffix {A : Type} (n : nat) (l : list A) :
  exists dropped, l = dropped ++ slice_last n l.
Proof.
  exists (firstn (length l - n) l). unfold slice_last.
  symmetry. apply firstn_skipn.
Qed.

Lemma substring_length_le (s : string) (i n : nat) :
  (String.length (substring i n s) <= n)%nat.
Proof.
  revert i n. induction s as [| c r IH]; intros i n.
  - destruct i, n; simpl; lia.
  - destruct i; simpl.
    + destruct n; simpl; [lia |]. specialize (IH 0%nat n). lia.
    + apply IH.
Qed.

Lemma slice0_length (n : nat) (s : string) :
  (String.length (slice0 n s) <= n)%nat.
Proof. apply substring_length_le. Qed.

(** [slice0] cuts: what it returns is the front of the string. *)
Lemma slice0_prefix (n : nat) (s : string) :
  exists rest, s = slice0 n s +++ rest.
Proof.
  unfold slice0. revert n. induction s as [| c r IH]; intros n.
  - exists EmptyString. destruct n; reflexivity.
  - destruct n as [| n]; cbn.
    + exists (String c r). reflexivity.
    + destruct (IH n) as [rest H]. exists rest. f_equal. exact H.
Qed.

Lemma slice0_short (n : nat) (s : string) :
  (String.length s <= n)%nat -> slice0 n s = s.
Proof.
  unfold slice0. revert n. induction s as [| c r IH]; intros n H.
  - destruct n; reflexivity.
  - destruct n as [| n]; cbn in *; [lia |]. f_equal. apply IH. lia.
Qed.

End SliceFacts.

(** ** The session actor *)

Module ChatSessionFacts.

Import JS ChatSession SliceFacts.

Section Facts.

Variable Date_now : nat -> Z.
Variable AI : Invoker.

Lemma history_bound_keeps (a : Actor) :
  (length (history a) <= 50)%nat -> slice_last 50 (history a) = history a.
Proof. apply slice_last_all. Qed.

(** What one [/store] does to the actor. *)
Lemma handleStoreMessage_spec (role content : option string) (a : Actor) :
  let '(response, a') := handleStoreMessage Date_now role content a in
  (falsy role || falsy content = true /\
   response = {| status := 400; body := ErrorMessage "Missing role or content" |} /\
   a' = a)
  \/
  (falsy role || falsy content = false /\
   response = ok Success /\
   history a' =
     slice_last 50
       (history a ++ [{| role := the role; content := the content;
                         timestamp := Date_now (clock_reads a) |}]) /\
   sent a' = sent a /\
   (sessionData a = None -> sessionData a' = None)).
Proof.
  unfold handleStoreMessage.
  destruct (falsy role || falsy content) eqn:E.
  - cbn. left. auto.
  - destruct a as [sd st n log]. destruct sd as [d |]; cbn; right.
    + repeat split; auto. discriminate.
    + repeat split; auto.
Qed.

(** What one [/message] does to the actor. *)
Lemma handleMessage_spec (message : string) (noteContext : option string)
  (a : Actor) :
  let '(response, a') := handleMessage Date_now AI message noteContext a in
  (history a' = history a /\ forall reply l, body response <> Reply reply l)
  \/
  (exists reply t t',
     response =
       ok (Reply reply
             (slice_last 50
                (history a ++
                 [{| role := "user"; content := message; timestamp := t |};
                  {| role := "assistant"; content := reply; timestamp := t' |}]))) /\
     history a' =
       slice_last 50
         (history a ++
          [{| role := "user"; content := message; timestamp := t |};
           {| role := "assistant"; content := reply; timestamp := t' |}])).
Proof.
  unfold handleMessage.
  destruct a as [sd st n log]. destruct sd as [d |].
  - destruct noteContext as [c |]; cbn.
    + destruct (AI (length log) _) as [| response]; cbn.
      * left. split; [reflexivity | discriminate].
      * right. do 3 eexists. rewrite <- !app_assoc. cbn. split; reflexivity.
    + destruct (AI (length log) _) as [| response]; cbn.
      * left. split; [reflexivity | discriminate].
      * right. do 3 eexists. rewrite <- !app_assoc. cbn. split; reflexivity.
  - cbn. left. split; [reflexivity | discriminate].
Qed.

(** One appending request: the stored history becomes the last fifty of
    the old history and the messages appended, and the caller saw those
    same messages appended. *)
Lemma fetch_appends (request : Request) (a : Actor) :
  appends request = true ->
  (length (history a) <= 50)%nat ->
  exists new,
    history (snd (fetch Date_now AI request a)) = slice_last 50 (history a ++ new) /\
    map entry new = appended_by request (fst (fetch Date_now AI request a)).
Proof.
  intros Happ Hlen.
  destruct request as [ | message ctx | role content | | | ]; try discriminate.
  - cbn [fetch].
    pose proof (handleMessage_spec message ctx a) as H.
    destruct (handleMessage Date_now AI message ctx a) as [response a'].
    cbn [fst snd].
    destruct H as [[Hh Hb] | (reply & t & t' & Hr & Hh)].
    + exists []. rewrite app_nil_r, Hh, history_bound_keeps by assumption.
      split; [reflexivity |].
      unfold appended_by. destruct (body response); try reflexivity.
      exfalso. eapply Hb. reflexivity.
    + eexists. split; [exact Hh |]. subst response. reflexivity.
  - cbn [fetch].
    pose proof (handleStoreMessage_spec role content a) as H.
    destruct (handleStoreMessage Date_now role content a) as [response a'].
    cbn [fst snd].
    destruct H as [(_ & Hr & Ha) | (_ & Hr & Hh & _)].
    + exists []. subst. rewrite app_nil_r, history_bound_keeps by assumption.
      split; reflexivity.
    + eexists. split; [exact Hh |]. subst response. reflexivity.
Qed.

Lemma serve_cons (request : Request) (rest : list Request) (a : Actor) :
  serve Date_now AI (request :: rest) a =
  (fst (fetch Date_now AI request a)
     :: fst (serve Date_now AI rest (snd (fetch Date_now AI request a))),
   snd (serve Date_now AI rest (snd (fetch Date_now AI request a)))).
Proof.
  cbn [serve]. unfold bind, ret.
  destruct (fetch Date_now AI request a) as [resp a1]. cbn [fst snd].
  destruct (serve Date_now AI rest a1) as [resps a2]. reflexivity.
Qed.

Lemma serve_appends (requests : list Request) :
  forall a,
    forallb appends requests = true ->
    (length (history a) <= 50)%nat ->
    exists new,
      history (snd (serve Date_now AI requests a))
        = slice_last 50 (history a ++ new) /\
      map entry new = appended requests (fst (serve Date_now AI requests a)).
Proof.
  induction requests as [| request rest IH]; intros a Hall Hlen.
  - exists []. cbn. rewrite app_nil_r, history_bound_keeps by assumption.
    split; reflexivity.
  - cbn [forallb] in Hall. apply andb_prop in Hall as [Hreq Hrest].
    rewrite serve_cons. cbn [fst snd appended].
    destruct (fetch_appends request a Hreq Hlen) as (new1 & Hh1 & He1).
    assert (Hlen1 : (length (history (snd (fetch Date_now AI request a))) <= 50)%nat).
    { rewrite Hh1. apply slice_last_bound. }
    destruct (IH _ Hrest Hlen1) as (new2 & Hh2 & He2).
    exists (new1 ++ new2). split.
    + rewrite Hh2, Hh1, slice_last_app, app_assoc. reflexivity.
    + rewrite map_app, He1, He2. reflexivity.
Qed.

Lemma alarm_without_session (a : Actor) :
  sessionData a = None -> alarm Date_now a = (tt, a).
Proof.
  intros H. unfold alarm, bind, this_sessionData. rewrite H. reflexivity.
Qed.

Lemma deliver_sessionless (e : Event) (a : Actor) :
  sessionless e = true ->
  sessionData a = None ->
  sessionData (snd (deliver Date_now AI e a)) = None.
Proof.
  intros He Ha.
  destruct e as [[ | | role content | | | ] |]; try discriminate.
  - cbn [deliver fetch]. unfold bind.
    pose proof (handleStoreMessage_spec role content a) as H.
    destruct (handleStoreMessage Date_now role content a) as [response a'].
    cbn. destruct H as [(_ & _ & ->) | (_ & _ & _ & _ & H)]; auto.
  - cbn. assumption.
  - cbn [deliver]. rewrite alarm_without_session by assumption. assumption.
Qed.

Lemma deliver_in_sync (e : Event) (a : Actor) :
  in_sync a -> in_sync (snd (deliver Date_now AI e a)).
Proof.
  unfold in_sync. intros H.
  destruct a as [sd st n log]. cbn in H.
  destruct e as [[id ctx | message ctx | role content | | | ] |].
  - reflexivity.
  - cbn [deliver fetch]. unfold handleMessage.
    destruct sd as [d |]; [| exact H].
    destruct ctx as [c |]; unfold bind; cbn;
      match goal with
      | |- context [AI ?k ?r] => destruct (AI k r) as [| response]
      end; cbn; auto.
  - cbn [deliver fetch]. unfold handleStoreMessage.
    destruct (falsy role || falsy content); [exact H |].
    destruct sd as [d |]; cbn; auto.
  - exact H.
  - exact H.
  - exact H.
  - cbn [deliver]. unfold alarm. destruct sd as [d |]; [| exact H].
    cbn. destruct (_ >=? _)%Z; cbn; exact H.
Qed.

Lemma deliver_history_bound (e : Event) (a : Actor) :
  (length (history a) <= 50)%nat ->
  (length (history (snd (deliver Date_now AI e a))) <= 50)%nat.
Proof.
  intros H.
  destruct e as [[id ctx | message ctx | role content | | | ] |].
  - exact H.
  - cbn [deliver fetch]. unfold bind.
    pose proof (handleMessage_spec message ctx a) as Hs.
    destruct (handleMessage Date_now AI message ctx a) as [response a'].
    cbn. destruct Hs as [[-> _] | (reply & t & t' & _ & ->)];
      [exact H | apply slice_last_bound].
  - cbn [deliver fetch]. unfold bind.
    pose proof (handleStoreMessage_spec role content a) as Hs.
    destruct (handleStoreMessage Date_now role content a) as [response a'].
    cbn. destruct Hs as [(_ & _ & ->) | (_ & _ & -> & _)];
      [exact H | apply slice_last_bound].
  - exact H.
  - cbn. lia.
  - exact H.
  - cbn [deliver]. unfold alarm, bind, this_sessionData.
    destruct (sessionData a) as [d |]; [| exact H].
    cbn. destruct (_ >=? _)%Z; cbn; [lia | exact H].
Qed.

(** Whatever reached a freshly created object, it stores at most fifty
    messages and its field agrees with its storage. *)
Lemma reachable_invariant (events : list Event) :
  forall a,
    (length (history a) <= 50)%nat /\ in_sync a ->
    (length (history (snd (deliver_all Date_now AI events a))) <= 50)%nat /\
    in_sync (snd (deliver_all Date_now AI events a)).
Proof.
  induction events as [| e rest IH]; intros a [Hb Hs]; [split; assumption |].
  cbn [deliver_all]. unfold bind.
  pose proof (deliver_history_bound e a Hb) as Hb'.
  pose proof (deliver_in_sync e a Hs) as Hs'.
  destruct (deliver Date_now AI e a) as [u a1]. cbn [snd] in Hb', Hs'.
  apply IH. split; assumption.
Qed.

(** C8. [/message] on an object whose [sessionData] is absent answers
    400 "Session not initialized" and leaves the whole actor, its
    storage included, as it was. *)
Theorem post_message_requires_init
  (message : string) (noteContext : option string) (a : Actor) :
  sessionData a = None ->
  fetch Date_now AI (POST_message message noteContext) a =
    ({| status := 400; body := ErrorMessage "Session not initialized" |}, a).
Proof.
  intros H. cbn [fetch]. unfold handleMessage, bind, this_sessionData.
  rewrite H. reflexivity.
Qed.

(** C9. [/clear] deletes the stored messages and nothing else: the
    history read right after it is empty, and [sessionData] (in the
    object and in storage), the alarm and the counters are unchanged. *)
Theorem clear_only_deletes_messages (a : Actor) :
  let cleared := snd (fetch Date_now AI POST_clear a) in
  fst (fetch Date_now AI POST_clear a) = ok Success /\
  stored_messages (storage cleared) = None /\
  fetch Date_now AI GET_history cleared = (ok (Messages []), cleared) /\
  sessionData cleared = sessionData a /\
  stored_sessionData (storage cleared) = stored_sessionData (storage a) /\
  stored_alarm (storage cleared) = stored_alarm (storage a) /\
  clock_reads cleared = clock_reads a /\
  sent cleared = sent a.
Proof. cbn. repeat split; reflexivity. Qed.

(** C7. The alarm on an initialized session reads the clock once.  When
    less than 24 hours passed since [lastActivity] it deletes nothing
    and sets the alarm to [lastActivity + 24h]; otherwise it deletes
    the stored messages and leaves [sessionData] and the alarm alone. *)
Theorem alarm_idle_timeout (a : Actor) (d : SessionData) :
  sessionData a = Some d ->
  let t := Date_now (clock_reads a) in
  let a' := snd (alarm Date_now a) in
  sessionData a' = Some d /\
  stored_sessionData (storage a') = stored_sessionData (storage a) /\
  ((t - lastActivity d < 86400000)%Z ->
     stored_messages (storage a') = stored_messages (storage a) /\
     stored_alarm (storage a') = Some (lastActivity d + 86400000)%Z) /\
  ((t - lastActivity d >= 86400000)%Z ->
     stored_messages (storage a') = None /\
     history a' = [] /\
     stored_alarm (storage a') = stored_alarm (storage a)).
Proof.
  intros H. unfold alarm, bind, this_sessionData. rewrite H. cbn.
  change twentyFourHours with 86400000%Z.
  destruct (Z.geb_spec (Date_now (clock_reads a) - lastActivity d) 86400000)
    as [Hge | Hlt]; cbn; repeat split; intros;
    try reflexivity; try assumption; lia.
Qed.

(** C10. Without [sessionData] the alarm leaves the actor exactly as it
    was: nothing deleted, nothing trimmed, no alarm set.  So on an
    object that was never initialized, a run of [/store] and [/history]
    requests and alarms ends in the state the same run ends in with its
    alarms taken out. *)
Theorem alarm_ignores_uninitialized (a : Actor) :
  sessionData a = None ->
  alarm Date_now a = (tt, a) /\
  forall events,
    forallb sessionless events = true ->
    deliver_all Date_now AI events a =
    deliver_all Date_now AI (filter (fun e => negb (is_alarm e)) events) a.
Proof.
  intros Ha. split; [apply alarm_without_session; assumption |].
  intros events. revert a Ha.
  induction events as [| e rest IH]; intros a Ha Hall; [reflexivity |].
  cbn [forallb] in Hall. apply andb_prop in Hall as [He Hrest].
  pose proof (deliver_sessionless e a He Ha) as Hnext.
  destruct e as [request |].
  - cbn [filter is_alarm negb deliver_all]. unfold bind.
    destruct (deliver Date_now AI (Fetch request) a) as [u a1].
    apply IH; assumption.
  - cbn [filter is_alarm negb deliver_all deliver]. unfold bind.
    rewrite alarm_without_session by assumption.
    apply IH; assumption.
Qed.

(** C4. Along every sequence of [/store] and [/message] requests, from
    a history of at most fifty, the stored history has at most fifty
    messages and is the last fifty of the old history followed by the
    messages appended, which are the ones the callers saw appended; what
    is missing from it was dropped from the front. *)
Theorem history_is_last_fifty (requests : list Request) (a : Actor) :
  forallb appends requests = true ->
  (length (history a) <= 50)%nat ->
  let a' := snd (serve Date_now AI requests a) in
  (length (history a') <= 50)%nat /\
  exists new dropped,
    map entry new = appended requests (fst (serve Date_now AI requests a)) /\
    history a' = slice_last 50 (history a ++ new) /\
    history a ++ new = dropped ++ history a'.
Proof.
  intros Hall Hlen.
  destruct (serve_appends requests a Hall Hlen) as (new & Hh & He).
  cbn zeta. split.
  - rewrite Hh. apply slice_last_bound.
  - destruct (slice_last_suffix 50 (history a ++ new)) as [dropped Hd].
    exists new, dropped. rewrite Hh. auto.
Qed.

(** C1 (amended). When the model call of [/message] fails on an
    initialized session, the answer is 500 "AI request failed", no
    assistant message is appended, and the stored history is exactly
    what it was: the user message was pushed onto the working copy only.
    [sessionData] changes only when a note context came with the
    request. *)
Theorem post_message_model_failure
  (message : string) (noteContext : option string) (a : Actor)
  (d : SessionData) :
  sessionData a = Some d ->
  (forall request, AI (length (sent a)) request = Fails) ->
  let a' := snd (fetch Date_now AI (POST_message message noteContext) a) in
  fst (fetch Date_now AI (POST_message message noteContext) a) =
    {| status := 500; body := ErrorMessage "AI request failed" |} /\
  stored_messages (storage a') = stored_messages (storage a) /\
  history a' = history a /\
  sessionData a' =
    match noteContext with
    | Some c => Some {| noteId := noteId d; noteContext := c;
                        lastActivity := Date_now (clock_reads a) |}
    | None => Some d
    end /\
  stored_sessionData (storage a') =
    match noteContext with
    | Some _ => sessionData a'
    | None => stored_sessionData (storage a)
    end.
Proof.
  intros Hd Hfail. destruct a as [sd st n log]. cbn in Hd, Hfail. subst sd.
  cbn [fetch]. unfold handleMessage.
  destruct noteContext as [c |]; cbn; rewrite Hfail; cbn;
    repeat split; reflexivity.
Qed.

(** The request [/message] makes, whatever the model answers. *)
Lemma handleMessage_sends
  (message : string) (noteContext : option string) (a : Actor)
  (d : SessionData) :
  sessionData a = Some d ->
  exists t,
    sent (snd (fetch Date_now AI (POST_message message noteContext) a)) =
    sent a ++
    [{| messages :=
          aiMessages
            {| noteId := noteId d;
               noteContext := match noteContext with
                              | Some c => c
                              | None => ChatSession.noteContext d
                              end;
               lastActivity := t |}
            (history a ++
             [{| role := "user"; content := message;
                 timestamp := Date_now
                   (clock_reads a + match noteContext with
                                    | Some _ => 1
                                    | None => 0
                                    end) |}]);
        max_tokens := 1024;
        temperature := 7 # 10 |}].
Proof.
  intros Hd. destruct a as [sd st n log]. cbn in Hd. subst sd.
  cbn [fetch]. unfold handleMessage.
  destruct noteContext as [c |]; cbn.
  - exists (Date_now n). replace (n + 1)%nat with (S n) by lia.
    destruct (AI (length log) _); reflexivity.
  - exists (lastActivity d). replace (n + 0)%nat with n by lia.
    destruct d. cbn.
    destruct (AI (length log) _); reflexivity.
Qed.

(** C2 (amended). On an initialized session holding exactly twelve
    stored messages, [/message] makes one model request.  Its list has
    eleven entries: the system message, whose content is the prompt
    around the current note context cut to 4000 units, then the nine
    most recent stored messages and the user message just pushed, each
    as role and content cut to 2000 units. *)
Theorem context_window_of_twelve
  (message : string) (noteContext : option string) (a : Actor)
  (d : SessionData) :
  sessionData a = Some d ->
  length (history a) = 12%nat ->
  let context := match noteContext with
                 | Some c => c
                 | None => ChatSession.noteContext d
                 end in
  exists request,
    sent (snd (fetch Date_now AI (POST_message message noteContext) a)) =
      sent a ++ [request] /\
    messages request =
      {| ai_role := "system"; ai_content := systemPrompt context |}
        :: map to_ai (slice_last 9 (history a))
        ++ [{| ai_role := "user"; ai_content := slice0 2000 message |}] /\
    length (messages request) = 11%nat /\
    (String.length (slice0 4000 context) <= 4000)%nat /\
    Forall (fun m => (String.length (ai_content m) <= 2000)%nat)
      (tl (messages request)).
Proof.
  intros Hd Hlen. cbn zeta.
  destruct (handleMessage_sends message noteContext a d Hd) as [t Hsent].
  eexists. split; [exact Hsent |].
  cbn [messages]. unfold aiMessages. cbn [ChatSession.noteContext].
  rewrite (slice_last_push 9), map_app. cbn [map to_ai role content].
  repeat split.
  - cbn [length]. rewrite length_app, length_map, slice_last_length, Hlen.
    reflexivity.
  - apply slice0_length.
  - cbn [tl]. apply Forall_app. split.
    + apply Forall_forall. intros m Hm. apply in_map_iff in Hm.
      destruct Hm as (x & <- & _). apply slice0_length.
    + constructor; [apply slice0_length | constructor].
Qed.

End Facts.

(** *** The statements above at concrete inputs *)

Import Sample.

Lemma post_message_requires_init_witness :
  sessionData (with_history twelve fresh) = None /\
  fetch clock (answering "Sure.") (POST_message "hello" (Some "notes"))
    (with_history twelve fresh)
  = ({| status := 400; body := ErrorMessage "Session not initialized" |},
     with_history twelve fresh).
Proof.
  split; [reflexivity |].
  apply (post_message_requires_init clock (answering "Sure.") "hello"
           (Some "notes") (with_history twelve fresh)).
  reflexivity.
Defined.

Lemma alarm_idle_timeout_witness :
  sessionData busy = Some session /\
  (history (snd (alarm clock busy)) = twelve /\
   stored_alarm (storage (snd (alarm clock busy))) = Some 1700086400000%Z) /\
  (history (snd (alarm late_clock busy)) = [] /\
   sessionData (snd (alarm late_clock busy)) = Some session).
Proof.
  split; [reflexivity |]. split.
  - destruct (alarm_idle_timeout clock busy session eq_refl)
      as (_ & _ & Hearly & _).
    destruct Hearly as [Hm Ha]; [vm_compute; reflexivity |].
    split; [| exact Ha].
    unfold history. rewrite Hm. reflexivity.
  - destruct (alarm_idle_timeout late_clock busy session eq_refl)
      as (Hs & _ & _ & Hlate).
    destruct Hlate as (_ & Hh & _); [vm_compute; discriminate |].
    split; assumption.
Defined.

Lemma alarm_ignores_uninitialized_witness :
  sessionData (with_history twelve fresh) = None /\
  alarm clock (with_history twelve fresh) = (tt, with_history twelve fresh) /\
  deliver_all clock failing
    [Fetch (POST_store (Some "assistant") (Some "Summary: ..."));
     AlarmFires; Fetch GET_history; AlarmFires]
    (with_history twelve fresh)
  = deliver_all clock failing
      [Fetch (POST_store (Some "assistant") (Some "Summary: ..."));
       Fetch GET_history]
      (with_history twelve fresh).
Proof.
  split; [reflexivity |].
  destruct (alarm_ignores_uninitialized clock failing
              (with_history twelve fresh) eq_refl) as [Halarm Hrun].
  split; [exact Halarm |].
  apply (Hrun [Fetch (POST_store (Some "assistant") (Some "Summary: ..."));
               AlarmFires; Fetch GET_history; AlarmFires]).
  reflexivity.
Defined.

Lemma history_is_last_fifty_witness :
  forallb appends (POST_message "hello" None :: sixty_stores) = true /\
  (length (history initialized) <= 50)%nat /\
  (length (history (snd (serve clock (answering "Sure.")
                           (POST_message "hello" None :: sixty_stores)
                           initialized))) <= 50)%nat.
Proof.
  split; [reflexivity |]. split; [vm_compute; lia |].
  apply (history_is_last_fifty clock (answering "Sure.")
           (POST_message "hello" None :: sixty_stores) initialized).
  - reflexivity.
  - vm_compute. lia.
Defined.

Lemma post_message_model_failure_witness :
  sessionData busy = Some session /\
  (forall request, failing (length (sent busy)) request = Fails) /\
  fst (fetch clock failing (POST_message "hello" None) busy) =
    {| status := 500; body := ErrorMessage "AI request failed" |} /\
  history (snd (fetch clock failing (POST_message "hello" None) busy)) = twelve.
Proof.
  split; [reflexivity |]. split; [reflexivity |].
  destruct (post_message_model_failure clock failing "hello" None busy session
              eq_refl (fun _ => eq_refl)) as (Hr & _ & Hh & _).
  split; [exact Hr | exact Hh].
Defined.

Lemma context_window_of_twelve_witness :
  sessionData busy = Some session /\
  length (history busy) = 12%nat /\
  exists request,
    sent (snd (fetch clock failing (POST_message "hello" None) busy)) = [request] /\
    length (messages request) = 11%nat.
Proof.
  split; [reflexivity |]. split; [reflexivity |].
  destruct (context_window_of_twelve clock failing "hello" None busy session
              eq_refl eq_refl) as (request & Hs & _ & Hl & _).
  exists request. split; [exact Hs | exact Hl].
Defined.

(** C1 as stated fails: after a failed [/message] on an initialized
    session with an empty history, the stored history is still empty, not
    the old history plus the user message. *)
Lemma failed_post_message_persists_nothing :
  fst (fetch clock failing (POST_message "hello" None) initialized) =
    {| status := 500; body := ErrorMessage "AI request failed" |} /\
  history (snd (fetch clock failing (POST_message "hello" None) initialized)) = [] /\
  ~ exists t,
      history (snd (fetch clock failing (POST_message "hello" None) initialized))
      = slice_last 50
          (history initialized
           ++ [{| role := "user"; content := "hello"; timestamp := t |}]).
Proof.
  split; [reflexivity |]. split; [reflexivity |].
  intros [t H]. vm_compute in H. discriminate H.
Qed.

(** C2 as stated fails: with twelve stored messages the list sent to the
    model is not the system message followed by the ten most recent
    stored ones; [stored 2], the tenth most recent, is not in it. *)
Lemma window_of_twelve_leaves_out_tenth :
  exists request,
    sent (snd (fetch clock failing (POST_message "hello" None) busy)) = [request] /\
    In (stored 2) (slice_last 10 (history busy)) /\
    ~ In (to_ai (stored 2)) (messages request) /\
    messages request <>
      {| ai_role := "system";
         ai_content := systemPrompt (noteContext session) |}
        :: map to_ai (slice_last 10 (history busy)).
Proof.
  eexists. split; [reflexivity |]. split; [vm_compute; tauto |]. split.
  - vm_compute. intros H.
    repeat (destruct H as [H | H]; [discriminate H |]). exact H.
  - vm_compute. intros H. discriminate H.
Qed.

End ChatSessionFacts.

(** ** The workflows *)

Module WorkflowFacts.

Import JS Value.

Section Facts.

Context {Num : Type} (engine : Engine Num).

(** *** Mapping with a callback that may raise *)

Lemma map_indexed_length {A B : Type} (f : A -> nat -> Completion B)
  (l : list A) :
  forall start r,
    map_indexed f l start = Normal r -> length r = length l.
Proof.
  induction l as [| x rest IH]; intros start r H; cbn in H.
  - inversion H. reflexivity.
  - destruct (f x start) as [y | e]; cbn in H; [| discriminate].
    destruct (map_indexed f rest (S start)) as [ys | e] eqn:E; cbn in H;
      [| discriminate].
    inversion H. cbn. f_equal. eapply IH. exact E.
Qed.

Lemma map_indexed_nth {A B : Type} (f : A -> nat -> Completion B)
  (l : list A) :
  forall start r i x,
    map_indexed f l start = Normal r ->
    nth_error l i = Some x ->
    exists y, f x (start + i)%nat = Normal y /\ nth_error r i = Some y.
Proof.
  induction l as [| x0 rest IH]; intros start r i x H Hi; cbn in H.
  - destruct i; discriminate.
  - destruct (f x0 start) as [y | e] eqn:Ef; cbn in H; [| discriminate].
    destruct (map_indexed f rest (S start)) as [ys | e] eqn:E; cbn in H;
      [| discriminate].
    inversion H; subst r. destruct i as [| i]; cbn in Hi.
    + inversion Hi; subst x0. exists y. rewrite Nat.add_0_r. auto.
    + destruct (IH (S start) ys i x E Hi) as (y' & Hf & Hn).
      exists y'. rewrite Nat.add_succ_r. auto.
Qed.

(** *** The validators *)

Lemma validateType_vocabulary (t : string) :
  In (QuestionsWorkflow.validateType t)
     ["recall"; "comprehension"; "application"].
Proof.
  unfold QuestionsWorkflow.validateType, includes. cbn [existsb].
  destruct (String.eqb_spec (trim (toLowerCase t)) "recall") as [-> | _];
    [cbn; auto |].
  destruct (String.eqb_spec (trim (toLowerCase t)) "comprehension") as [-> | _];
    [cbn; auto |].
  destruct (String.eqb_spec (trim (toLowerCase t)) "application") as [-> | _];
    cbn; auto.
Qed.

Lemma validateDifficulty_vocabulary (d : string) :
  In (QuestionsWorkflow.validateDifficulty d) ["easy"; "medium"; "hard"].
Proof.
  unfold QuestionsWorkflow.validateDifficulty, includes. cbn [existsb].
  destruct (String.eqb_spec (trim (toLowerCase d)) "easy") as [-> | _];
    [cbn; auto |].
  destruct (String.eqb_spec (trim (toLowerCase d)) "medium") as [-> | _];
    [cbn; auto |].
  destruct (String.eqb_spec (trim (toLowerCase d)) "hard") as [-> | _];
    cbn; auto.
Qed.

(** *** Categorization *)

(** With no category covering [idx], [find] gives [undefined], unless a
    [null] element made it raise. *)
Lemma find_index_uncovered (categories : list (Json Num)) (idx : nat) :
  forallb (fun c => negb (QuestionsWorkflow.covers engine idx c)) categories = true ->
  find_index engine categories idx = Normal None \/
  exists e, find_index engine categories idx = Throw e.
Proof.
  induction categories as [| c rest IH]; intros H; [left; reflexivity |].
  cbn [forallb] in H. apply andb_prop in H as [Hc Hrest].
  apply negb_true_iff in Hc.
  destruct c as [| b | n | s | items | fields]; cbn in *;
    try (apply IH; assumption).
  - right. eexists. reflexivity.
  - rewrite Hc. apply IH. assumption.
Qed.

Lemma categorize_uncovered (categories : list (Json Num)) (q : string)
  (idx : nat) :
  forallb (fun c => negb (QuestionsWorkflow.covers engine idx c)) categories = true ->
  QuestionsWorkflow.categorize engine categories q idx = Normal (QuestionsWorkflow.default_question q) \/
  exists e, QuestionsWorkflow.categorize engine categories q idx = Throw e.
Proof.
  intros H. unfold QuestionsWorkflow.categorize.
  destruct (find_index_uncovered categories idx H) as [-> | [e ->]].
  - left. reflexivity.
  - right. exists e. reflexivity.
Qed.

Lemma with_defaults_nth (questions : list string) (idx : nat) (q : string) :
  nth_error questions idx = Some q ->
  nth_error (QuestionsWorkflow.with_defaults questions) idx
  = Some (QuestionsWorkflow.default_question q).
Proof.
  intros H. unfold QuestionsWorkflow.with_defaults.
  rewrite nth_error_map, H. reflexivity.
Qed.

(** The stage returns one labelled question per question, whatever the
    model answers. *)
Lemma categorizeQuestions_length (run : AiRequest -> AiOutcome)
  (questions : list string) :
  length (QuestionsWorkflow.categorizeQuestions engine run questions)
  = length questions.
Proof.
  unfold QuestionsWorkflow.categorizeQuestions, QuestionsWorkflow.with_defaults.
  destruct questions as [| q0 rest]; [reflexivity |].
  cbn [length Nat.eqb].
  match goal with
  | |- context [responding (run ?r) _] => destruct (run r) as [| response]
  end; cbn [responding try_catch]; [apply length_map |].
  destruct (match_array (or_default response "[]")) as [m |];
    [| apply length_map].
  destruct (JSON_parse engine m) as [v | e]; cbn [cbind]; [| apply length_map].
  destruct v; try apply length_map.
  destruct (map_indexed _ _ _) as [l | e] eqn:E; cbn [cbind try_catch];
    [| apply length_map].
  apply map_indexed_length in E. exact E.
Qed.

Lemma categorizeQuestions_uncovered (run : AiRequest -> AiOutcome)
  (questions : list string) (idx : nat) (q : string) :
  nth_error questions idx = Some q ->
  (forall request categories,
     QuestionsWorkflow.categories_of engine (run request) = Some categories ->
     forallb (fun c => negb (QuestionsWorkflow.covers engine idx c)) categories
     = true) ->
  nth_error (QuestionsWorkflow.categorizeQuestions engine run questions) idx
  = Some (QuestionsWorkflow.default_question q).
Proof.
  intros Hq Hcov.
  pose proof (with_defaults_nth questions idx q Hq) as Hdef.
  unfold QuestionsWorkflow.categorizeQuestions.
  destruct questions as [| q0 rest]; [destruct idx; discriminate |].
  cbn [length Nat.eqb].
  match goal with
  | |- context [responding (run ?r) _] =>
      specialize (Hcov r); destruct (run r) as [| response]
  end; cbn [responding try_catch]; [exact Hdef |].
  unfold QuestionsWorkflow.categories_of in Hcov.
  destruct (match_array (or_default response "[]")) as [m |]; [| exact Hdef].
  destruct (JSON_parse engine m) as [v | e]; cbn [cbind]; [| exact Hdef].
  destruct v as [| b | n | s | items | fields]; try exact Hdef.
  specialize (Hcov items eq_refl).
  destruct (map_indexed _ _ _) as [l | e] eqn:E; cbn [cbind try_catch];
    [| exact Hdef].
  destruct (map_indexed_nth _ _ _ _ _ _ E Hq) as (y & Hy & Hn).
  rewrite Hn. f_equal.
  destruct (categorize_uncovered items q (0 + idx) Hcov) as [H | [e H]];
    cbn [Nat.add] in *; congruence.
Qed.

(** C5. Whenever no category of the model's categorization answer
    covers the position [idx] of a generated question (because the
    answer lists other indices only, is no JSON array, or the call
    failed), the pipeline returns one labelled question per generated
    question and the one at [idx] carries ("comprehension", "medium").
    The validators lower-case and trim their argument, and give
    "comprehension" and "medium" for whatever is then outside the
    vocabulary; their results always lie in it. *)
Theorem uncovered_question_gets_defaults
  (AI : Invoker) (noteContent noteTitle : string) (idx : nat) (q : string) :
  let generated :=
    QuestionsWorkflow.generateQuestions engine (AI 1%nat) noteContent noteTitle
      (QuestionsWorkflow.analyzeContentDifficulty (AI 0%nat) noteContent) in
  nth_error generated idx = Some q ->
  (forall request categories,
     QuestionsWorkflow.categories_of engine (AI 2%nat request) = Some categories ->
     forallb (fun c => negb (QuestionsWorkflow.covers engine idx c)) categories
     = true) ->
  let result := QuestionsWorkflow.run engine AI noteContent noteTitle in
  length (QuestionsWorkflow.questions result) = length generated /\
  QuestionsWorkflow.totalCount result = length generated /\
  nth_error (QuestionsWorkflow.questions result) idx
    = Some (QuestionsWorkflow.default_question q) /\
  (forall t,
     includes ["recall"; "comprehension"; "application"]
       (trim (toLowerCase t)) = false ->
     QuestionsWorkflow.validateType t = "comprehension") /\
  (forall d,
     includes ["easy"; "medium"; "hard"] (trim (toLowerCase d)) = false ->
     QuestionsWorkflow.validateDifficulty d = "medium") /\
  (forall t, In (QuestionsWorkflow.validateType t)
               ["recall"; "comprehension"; "application"]) /\
  (forall d, In (QuestionsWorkflow.validateDifficulty d)
               ["easy"; "medium"; "hard"]).
Proof.
  intros generated Hq Hcov result.
  unfold result, QuestionsWorkflow.run.
  cbn [QuestionsWorkflow.questions QuestionsWorkflow.totalCount].
  fold generated.
  rewrite categorizeQuestions_length.
  repeat split.
  - apply categorizeQuestions_uncovered; assumption.
  - intros t H. unfold QuestionsWorkflow.validateType. rewrite H. reflexivity.
  - intros d H. unfold QuestionsWorkflow.validateDifficulty. rewrite H.
    reflexivity.
  - apply validateType_vocabulary.
  - apply validateDifficulty_vocabulary.
Qed.

(** *** The summary stages *)

(** Joining raises on an object that has a property named [toString]. *)
Lemma join_raises_on_toString (fields : list (string * Json Num))
  (rest : list (Json Num)) (sep : string) :
  own "toString" fields <> None ->
  Array_join engine (JArray (JObject fields :: rest)) sep = Throw TypeError.
Proof.
  intros H. cbn. destruct (own "toString" fields); [reflexivity | congruence].
Qed.

(** The summary run raises exactly when joining the topics raises. *)
Lemma summary_run_raises_iff (AI : Invoker) (noteContent noteTitle : string)
  (e : Error) :
  SummaryWorkflow.run engine AI noteContent noteTitle = Throw e <->
  Array_join engine
    (SummaryWorkflow.extractTopics engine (AI 0%nat) noteContent noteTitle) ", "
  = Throw e.
Proof.
  unfold SummaryWorkflow.run, SummaryWorkflow.generateSummary.
  destruct (Array_join engine _ ", ") as [joined | e']; cbn [cbind];
    split; intros H; try discriminate; inversion H; reflexivity.
Qed.

Lemma element_strings_of_strings (items : list (Json Num)) :
  Forall (fun x => exists s, x = JString s) items ->
  exists ss, element_strings engine items = Normal ss.
Proof.
  induction 1 as [| x rest [s ->] _ [ss IH]].
  - exists []. reflexivity.
  - exists (s :: ss). cbn. rewrite IH. reflexivity.
Qed.

(** With topics that are an array of strings the run completes. *)
Lemma summary_run_completes (AI : Invoker) (noteContent noteTitle : string)
  (items : list (Json Num)) :
  SummaryWorkflow.extractTopics engine (AI 0%nat) noteContent noteTitle
    = JArray items ->
  Forall (fun x => exists s, x = JString s) items ->
  exists r, SummaryWorkflow.run engine AI noteContent noteTitle = Normal r.
Proof.
  intros Ht Hs. unfold SummaryWorkflow.run, SummaryWorkflow.generateSummary.
  rewrite Ht. cbn [Array_join].
  destruct (element_strings_of_strings items Hs) as [ss ->].
  cbn [cbind]. eexists. reflexivity.
Qed.

(** C3 (amended). When every model call fails, the summary run returns
    the non-empty text "Error generating summary.", no key points, and
    the single default topic "General". *)
Theorem summary_when_model_fails
  (AI : Invoker) (noteContent noteTitle : string) :
  (forall n request, AI n request = Fails) ->
  SummaryWorkflow.run engine AI noteContent noteTitle =
    Normal {| SummaryWorkflow.summary := "Error generating summary.";
              SummaryWorkflow.keyPoints := JArray [];
              SummaryWorkflow.topics := JArray [JString "General"] |} /\
  "Error generating summary." <> EmptyString.
Proof.
  intros Hfail. split; [| discriminate].
  unfold SummaryWorkflow.run, SummaryWorkflow.extractTopics,
    SummaryWorkflow.generateSummary, SummaryWorkflow.extractKeyPoints.
  rewrite Hfail.
  cbn [responding try_catch Array_join element_strings ToString cbind].
  rewrite !Hfail. reflexivity.
Qed.

End Facts.

(** *** The statements above at concrete inputs *)

Import Sample.

Lemma uncovered_question_gets_defaults_witness :
  nth_error
    (QuestionsWorkflow.generateQuestions Parser.engine (questions_model 1%nat)
       "Cells divide." "Biology"
       (QuestionsWorkflow.analyzeContentDifficulty (questions_model 0%nat)
          "Cells divide."))
    1 = Some "Why do cells divide?" /\
  (forall request categories,
     QuestionsWorkflow.categories_of Parser.engine (questions_model 2%nat request)
       = Some categories ->
     forallb (fun c => negb (QuestionsWorkflow.covers Parser.engine 1 c)) categories
     = true) /\
  length (QuestionsWorkflow.questions
            (QuestionsWorkflow.run Parser.engine questions_model
               "Cells divide." "Biology")) = 3%nat /\
  nth_error (QuestionsWorkflow.questions
               (QuestionsWorkflow.run Parser.engine questions_model
                  "Cells divide." "Biology")) 1
  = Some (QuestionsWorkflow.default_question "Why do cells divide?").
Proof.
  assert (Hcov : forall request categories,
             QuestionsWorkflow.categories_of Parser.engine
               (questions_model 2%nat request) = Some categories ->
             forallb (fun c => negb (QuestionsWorkflow.covers Parser.engine 1 c))
               categories = true).
  { intros request categories H. vm_compute in H.
    inversion H. vm_compute. reflexivity. }
  split; [vm_compute; reflexivity |]. split; [exact Hcov |].
  destruct (uncovered_question_gets_defaults Parser.engine questions_model
              "Cells divide." "Biology" 1 "Why do cells divide?")
    as (Hlen & _ & Hnth & _).
  - vm_compute. reflexivity.
  - exact Hcov.
  - split; [rewrite Hlen; vm_compute; reflexivity | exact Hnth].
Defined.

Lemma summary_when_model_fails_witness :
  (forall n request, failing n request = Fails) /\
  SummaryWorkflow.run Parser.engine failing "Cells divide." "Biology" =
    Normal {| SummaryWorkflow.summary := "Error generating summary.";
              SummaryWorkflow.keyPoints := JArray [];
              SummaryWorkflow.topics := JArray [JString "General"] |}.
Proof.
  split; [reflexivity |].
  apply (summary_when_model_fails Parser.engine failing "Cells divide." "Biology").
  reflexivity.
Defined.

(** C3 as stated fails: with a model that fails on every call the topics
    of the result are not the empty sequence. *)
Lemma failing_model_leaves_a_topic :
  exists r,
    SummaryWorkflow.run Parser.engine failing "Cells divide." "Biology" = Normal r /\
    SummaryWorkflow.keyPoints r = JArray [] /\
    SummaryWorkflow.topics r = JArray [JString "General"] /\
    ~ (SummaryWorkflow.keyPoints r = JArray [] /\
       SummaryWorkflow.topics r = JArray []).
Proof.
  eexists. split; [vm_compute; reflexivity |].
  cbn. repeat split. intros [_ H]. discriminate H.
Qed.

(** C6. The summary run does raise: when the model answers the topics
    stage with an array holding an object that has a property named
    [toString], joining the topics for the next prompt, outside every
    [try], raises a TypeError that leaves [run]. *)
Theorem summary_run_raises_on_odd_topics :
  Parser.parse odd_topics
    = Normal (JArray [JObject [("toString",
                                JNumber {| Decimal.mant := 1; Decimal.expo := 0 |})]]) /\
  SummaryWorkflow.run Parser.engine odd_model "Cells divide." "Biology"
    = Throw TypeError.
Proof. split; vm_compute; reflexivity. Qed.

End WorkflowFacts.

(** ** More on the session actor *)

Module SessionBehaviour.

Import JS ChatSession SliceFacts ChatSessionFacts SessionTrace.

Lemma slice_last_app_tail {A : Type} (n : nat) (l x : list A) :
  slice_last (n + length x) (l ++ x) = slice_last n l ++ x.
Proof.
  unfold slice_last. rewrite length_app, skipn_app.
  replace (length l + length x - (n + length x))%nat
    with (length l - n)%nat by lia.
  replace (length l - n - length l)%nat with 0%nat by lia.
  reflexivity.
Qed.

Lemma slice_last_push2 {A : Type} (n : nat) (l : list A) (x y : A) :
  slice_last (S (S n)) (l ++ [x; y]) = slice_last n l ++ [x; y].
Proof.
  replace (S (S n)) with (n + length [x; y])%nat by (cbn; lia).
  apply slice_last_app_tail.
Qed.

Lemma or_default_nonempty (x : option string) (d : string) :
  d <> EmptyString -> or_default x d <> EmptyString.
Proof.
  intros Hd. destruct x as [[| c s] |]; cbn; try assumption. discriminate.
Qed.

Section Behaviour.

Variable Date_now : nat -> Z.
Variable AI : Invoker.

(** [/store] checks its two fields and nothing else.  With a falsy field
    it answers 400 and changes nothing.  Otherwise it keeps the last 49
    stored messages and puts the new one behind them, refreshes
    [lastActivity] when a session exists and creates none when there is
    none; it never calls the model and never touches the alarm. *)
Theorem store_message_effect (role content : option string) (a : Actor) :
  let response := fst (fetch Date_now AI (POST_store role content) a) in
  let a' := snd (fetch Date_now AI (POST_store role content) a) in
  if falsy role || falsy content then
    response = {| status := 400; body := ErrorMessage "Missing role or content" |} /\
    a' = a
  else
    response = ok Success /\
    history a' =
      slice_last 49 (history a)
      ++ [{| role := the role; content := the content;
             timestamp := Date_now (clock_reads a) |}] /\
    sessionData a' =
      match sessionData a with
      | Some d => Some {| noteId := noteId d; noteContext := noteContext d;
                          lastActivity := Date_now (S (clock_reads a)) |}
      | None => None
      end /\
    stored_sessionData (storage a') =
      match sessionData a with
      | Some _ => sessionData a'
      | None => stored_sessionData (storage a)
      end /\
    stored_alarm (storage a') = stored_alarm (storage a) /\
    sent a' = sent a.
Proof.
  cbn [fetch]. unfold handleStoreMessage.
  destruct (falsy role || falsy content); [split; reflexivity |].
  destruct a as [sd st n log]. destruct sd as [d |]; cbn;
    rewrite (slice_last_push 49); repeat split; reflexivity.
Qed.

(** The state after a [/message] the model answered. *)
Lemma handleMessage_answered
  (message : string) (noteContext : option string) (a : Actor)
  (d : SessionData) (response : option string) :
  sessionData a = Some d ->
  (forall request, AI (length (sent a)) request = Responds response) ->
  let n := (clock_reads a + match noteContext with Some _ => 1 | None => 0 end)%nat in
  let reply := or_default response "Sorry, I could not generate a response." in
  let keep :=
    slice_last 48 (history a)
    ++ [{| role := "user"; content := message; timestamp := Date_now n |};
        {| role := "assistant"; content := reply; timestamp := Date_now (S n) |}] in
  let d' := {| noteId := noteId d;
               noteContext := match noteContext with
                              | Some c => c
                              | None => ChatSession.noteContext d
                              end;
               lastActivity := Date_now (S (S n)) |} in
  exists request,
    fetch Date_now AI (POST_message message noteContext) a =
    (ok (Reply reply keep),
     {| sessionData := Some d';
        storage := {| stored_sessionData := Some d';
                      stored_messages := Some keep;
                      stored_alarm := stored_alarm (storage a) |};
        clock_reads := S (S (S n));
        sent := sent a ++ [request] |}).
Proof.
  intros Hd Hai. destruct a as [sd st k log]. cbn in Hd, Hai. subst sd.
  cbn [fetch]. unfold handleMessage.
  destruct noteContext as [c |]; cbn -[slice_last]; rewrite Hai;
    cbn -[slice_last].
  - eexists. replace (k + 1)%nat with (S k) by lia.
    rewrite <- app_assoc. cbn [app].
    rewrite (slice_last_push2 48). reflexivity.
  - eexists. replace (k + 0)%nat with k by lia.
    rewrite <- app_assoc. cbn [app].
    rewrite (slice_last_push2 48). destruct d. reflexivity.
Qed.

(** A [/message] the model answers: the reply is never empty (an empty or
    missing text becomes the apology), the stored history is the last 48
    old messages followed by the user message and the reply, the history
    in the response is that stored history, [lastActivity] is the last
    clock reading and is stored, the alarm is left alone, and one request
    went to the model. *)
Theorem post_message_success
  (message : string) (noteContext : option string) (a : Actor)
  (d : SessionData) (response : option string) :
  sessionData a = Some d ->
  (forall request, AI (length (sent a)) request = Responds response) ->
  let n := (clock_reads a + match noteContext with Some _ => 1 | None => 0 end)%nat in
  let reply := or_default response "Sorry, I could not generate a response." in
  let a' := snd (fetch Date_now AI (POST_message message noteContext) a) in
  reply <> EmptyString /\
  history a' =
    slice_last 48 (history a)
    ++ [{| role := "user"; content := message; timestamp := Date_now n |};
        {| role := "assistant"; content := reply; timestamp := Date_now (S n) |}] /\
  fst (fetch Date_now AI (POST_message message noteContext) a)
    = ok (Reply reply (history a')) /\
  (length (history a') <= 50)%nat /\
  sessionData a' =
    Some {| noteId := noteId d;
            noteContext := match noteContext with
                           | Some c => c
                           | None => ChatSession.noteContext d
                           end;
            lastActivity := Date_now (S (S n)) |} /\
  stored_sessionData (storage a') = sessionData a' /\
  stored_alarm (storage a') = stored_alarm (storage a) /\
  length (sent a') = S (length (sent a)).
Proof.
  intros Hd Hai.
  destruct (handleMessage_answered message noteContext a d response Hd Hai)
    as [request E].
  cbn zeta in *. rewrite E. cbn [fst snd history storage stored_messages
    sessionData stored_sessionData stored_alarm sent].
  split; [apply or_default_nonempty; discriminate |].
  repeat split.
  - rewrite length_app, slice_last_length. cbn [length]. lia.
  - rewrite length_app. cbn. lia.
Qed.


(** [/init] touches neither the history nor the model, and once it ran
    [/message] is never turned away: its answer is a reply or the 500 of
    a failed model call, not the 400 of a missing session. *)
Theorem init_then_message_is_accepted
  (noteId : string) (noteContext : option string)
  (message : string) (context : option string) (a : Actor) :
  let a1 := snd (fetch Date_now AI (POST_init noteId noteContext) a) in
  let response := fst (fetch Date_now AI (POST_message message context) a1) in
  history a1 = history a /\
  sent a1 = sent a /\
  ((exists reply l, response = ok (Reply reply l)) \/
   response = {| status := 500; body := ErrorMessage "AI request failed" |}).
Proof.
  destruct a as [sd st n log]. cbn [fetch]. unfold handleInit. cbn.
  split; [reflexivity |]. split; [reflexivity |].
  unfold handleMessage.
  destruct context as [c |]; cbn;
    match goal with
    | |- context [AI ?k ?r] => destruct (AI k r) as [| response]
    end; cbn; eauto.
Qed.

(** *** The model is called by [/message] only *)

Lemma deliver_sends (e : Event) (a : Actor) :
  exists more,
    sent (snd (deliver Date_now AI e a)) = sent a ++ more /\
    (length more <= if is_message e then 1 else 0)%nat.
Proof.
  destruct a as [sd st n log].
  destruct e as [[id ctx | message ctx | role content | | | ] |].
  - exists []. cbn. rewrite app_nil_r. auto.
  - cbn [deliver fetch is_message]. unfold handleMessage.
    destruct sd as [d |].
    + destruct ctx as [c |]; unfold bind; cbn;
        match goal with
        | |- context [AI ?k ?r] => destruct (AI k r) as [| response]
        end; cbn; eexists; split; try reflexivity; cbn; lia.
    + exists []. cbn. rewrite app_nil_r. auto.
  - exists []. cbn [deliver fetch is_message]. unfold handleStoreMessage.
    destruct (falsy role || falsy content); cbn;
      [| destruct sd as [d |]; cbn]; rewrite app_nil_r; auto.
  - exists []. cbn. rewrite app_nil_r. auto.
  - exists []. cbn. rewrite app_nil_r. auto.
  - exists []. cbn. rewrite app_nil_r. auto.
  - exists []. cbn [deliver is_message]. unfold alarm.
    destruct sd as [d |]; cbn; [destruct (_ >=? _)%Z; cbn |];
      rewrite app_nil_r; auto.
Qed.

(** Along every run the requests made to the model only grow, by at most
    one per [/message] request: [/init], [/store], [/history], [/clear],
    unknown routes and the alarm never call the model. *)
Theorem model_called_by_message_only (events : list Event) (a : Actor) :
  exists more,
    sent (snd (deliver_all Date_now AI events a)) = sent a ++ more /\
    (length more <= message_count events)%nat.
Proof.
  revert a. induction events as [| e rest IH]; intros a.
  - exists []. cbn. rewrite app_nil_r. auto.
  - cbn [deliver_all]. unfold bind.
    destruct (deliver_sends e a) as (m1 & H1 & L1).
    destruct (deliver Date_now AI e a) as [u a1]. cbn [snd] in H1.
    destruct (IH a1) as (m2 & H2 & L2).
    exists (m1 ++ m2). rewrite H2, H1, app_assoc. split; [reflexivity |].
    rewrite length_app. unfold message_count in *. cbn [filter].
    destruct (is_message e); cbn [length]; lia.
Qed.

(** After whatever reached a fresh object, [/history] answers with the
    stored messages, at most fifty of them, and changes nothing. *)
Theorem history_read_after_any_run (events : list Event) :
  let a := snd (deliver_all Date_now AI events fresh) in
  fetch Date_now AI GET_history a = (ok (Messages (history a)), a) /\
  (length (history a) <= 50)%nat.
Proof.
  cbn zeta. split; [reflexivity |].
  apply (reachable_invariant Date_now AI events fresh).
  split; [cbn; lia | reflexivity].
Qed.

(** After whatever reached a fresh object, running the constructor again
    (the object was evicted and is created anew over its storage) gives
    the object back as it was: nothing the handlers rely on lives in
    memory only. *)
Theorem eviction_is_transparent (events : list Event) :
  let a := snd (deliver_all Date_now AI events fresh) in
  constructor a = (tt, a).
Proof.
  cbn zeta.
  destruct (reachable_invariant Date_now AI events fresh) as [_ Hs];
    [split; [cbn; lia | reflexivity] |].
  destruct (snd (deliver_all Date_now AI events fresh)) as [sd st n log].
  unfold in_sync in Hs. cbn in Hs. unfold constructor, set_this_sessionData.
  cbn. rewrite <- Hs. reflexivity.
Qed.

(** *** Expiry *)

(** An idle session is gone after one reschedule: when the alarm fires
    early it moves itself to [lastActivity + 24h]; when it then fires no
    earlier than that, with nothing in between, the messages are deleted
    and the session data stay. *)
Theorem idle_session_expires_after_reschedule (a : Actor) (d : SessionData) :
  sessionData a = Some d ->
  (Date_now (clock_reads a) - lastActivity d < 86400000)%Z ->
  (lastActivity d + 86400000 <= Date_now (S (clock_reads a)))%Z ->
  let a1 := snd (alarm Date_now a) in
  let a2 := snd (alarm Date_now a1) in
  stored_alarm (storage a1) = Some (lastActivity d + 86400000)%Z /\
  history a1 = history a /\
  history a2 = [] /\
  sessionData a2 = Some d /\
  stored_sessionData (storage a2) = stored_sessionData (storage a).
Proof.
  intros Hd Hearly Hlate. destruct a as [sd st n log]. cbn in *. subst sd.
  unfold alarm, bind, this_sessionData. cbn.
  change twentyFourHours with 86400000%Z.
  destruct (Z.geb_spec (Date_now n - lastActivity d) 86400000); [lia |].
  cbn. change twentyFourHours with 86400000%Z.
  destruct (Z.geb_spec (Date_now (S n) - lastActivity d) 86400000); [| lia].
  cbn. repeat split; reflexivity.
Qed.

(** The alarm [/init] schedules does its work: when the clock does not run
    backwards during [/init] and the alarm fires no earlier than scheduled,
    with nothing in between, the stored messages are deleted. *)
Theorem init_alarm_expires_untouched_session
  (noteId : string) (noteContext : option string) (a : Actor) :
  let n := clock_reads a in
  (Date_now n <= Date_now (S n))%Z ->
  (Date_now (S n) + 86400000 <= Date_now (S (S n)))%Z ->
  let a1 := snd (fetch Date_now AI (POST_init noteId noteContext) a) in
  let a2 := snd (alarm Date_now a1) in
  stored_alarm (storage a1) = Some (Date_now (S n) + 86400000)%Z /\
  history a1 = history a /\
  history a2 = [] /\
  sessionData a2 = sessionData a1.
Proof.
  intros n Hmono Hfire. subst n. destruct a as [sd st n log]. cbn in *.
  unfold alarm, bind, this_sessionData. cbn.
  change twentyFourHours with 86400000%Z.
  destruct (Z.geb_spec (Date_now (S (S n)) - Date_now n) 86400000); [| lia].
  cbn. repeat split; reflexivity.
Qed.

(** Activity restarts the 24 hours: after a [/store] on an initialized
    session, however old its [lastActivity] was, an alarm firing less than
    24 hours after the store keeps the messages, the new one included, and
    moves itself to 24 hours after the store. *)
Theorem store_postpones_expiry
  (role content : option string) (a : Actor) (d : SessionData) :
  sessionData a = Some d ->
  falsy role || falsy content = false ->
  let n := clock_reads a in
  (Date_now (S (S n)) - Date_now (S n) < 86400000)%Z ->
  let a1 := snd (fetch Date_now AI (POST_store role content) a) in
  let a2 := snd (alarm Date_now a1) in
  history a2 = history a1 /\
  In {| role := the role; content := the content; timestamp := Date_now n |}
     (history a2) /\
  stored_alarm (storage a2) = Some (Date_now (S n) + 86400000)%Z.
Proof.
  intros Hd Hok n Hsoon. subst n. destruct a as [sd st n log]. cbn in *.
  subst sd. unfold handleStoreMessage. rewrite Hok. cbn.
  unfold alarm, bind, this_sessionData. cbn.
  change twentyFourHours with 86400000%Z.
  destruct (Z.geb_spec (Date_now (S (S n)) - Date_now (S n)) 86400000); [lia |].
  cbn. split; [reflexivity |]. split; [| reflexivity].
  rewrite (slice_last_push 49). apply in_or_app. right. left. reflexivity.
Qed.


End Behaviour.

(** *** The statements above at concrete inputs *)

Import Sample MoreSamples.

Lemma post_message_success_witness :
  sessionData busy = Some session /\
  (forall request, answering "Sure." (length (sent busy)) request
                   = Responds (Some "Sure.")) /\
  fst (fetch clock (answering "Sure.") (POST_message "hello" None) busy)
    = ok (Reply "Sure."
            (history (snd (fetch clock (answering "Sure.")
                             (POST_message "hello" None) busy)))) /\
  length (history (snd (fetch clock (answering "Sure.")
                          (POST_message "hello" None) busy))) = 14%nat.
Proof.
  split; [reflexivity |]. split; [reflexivity |].
  destruct (post_message_success clock (answering "Sure.") "hello" None busy
              session (Some "Sure.") eq_refl (fun _ => eq_refl))
    as (_ & Hh & Hr & _).
  split; [exact Hr |]. rewrite Hh. vm_compute. reflexivity.
Defined.

Lemma idle_session_expires_after_reschedule_witness :
  sessionData busy = Some session /\
  (jump_after 2 (clock_reads busy) - lastActivity session < 86400000)%Z /\
  (lastActivity session + 86400000 <= jump_after 2 (S (clock_reads busy)))%Z /\
  history (snd (alarm (jump_after 2) busy)) = twelve /\
  history (snd (alarm (jump_after 2) (snd (alarm (jump_after 2) busy)))) = [].
Proof.
  assert (H1 : (jump_after 2 (clock_reads busy) - lastActivity session
                < 86400000)%Z) by (vm_compute; reflexivity).
  assert (H2 : (lastActivity session + 86400000
                <= jump_after 2 (S (clock_reads busy)))%Z)
    by (vm_compute; discriminate).
  split; [reflexivity |]. split; [exact H1 |]. split; [exact H2 |].
  destruct (idle_session_expires_after_reschedule (jump_after 2) busy session
              eq_refl H1 H2) as (_ & Hh1 & Hh2 & _).
  split; [exact Hh1 | exact Hh2].
Defined.

Lemma init_alarm_expires_untouched_session_witness :
  (jump_after 1 0 <= jump_after 1 1)%Z /\
  (jump_after 1 1 + 86400000 <= jump_after 1 2)%Z /\
  history (snd (fetch (jump_after 1) failing (POST_init "note-1" None)
                  (with_history twelve fresh))) = twelve /\
  history (snd (alarm (jump_after 1)
                  (snd (fetch (jump_after 1) failing (POST_init "note-1" None)
                          (with_history twelve fresh))))) = [].
Proof.
  assert (H1 : (jump_after 1 0 <= jump_after 1 1)%Z)
    by (vm_compute; discriminate).
  assert (H2 : (jump_after 1 1 + 86400000 <= jump_after 1 2)%Z)
    by (vm_compute; discriminate).
  split; [exact H1 |]. split; [exact H2 |].
  destruct (init_alarm_expires_untouched_session (jump_after 1) failing
              "note-1" None (with_history twelve fresh) H1 H2)
    as (_ & Hh1 & Hh2 & _).
  split; [exact Hh1 | exact Hh2].
Defined.

Lemma store_postpones_expiry_witness :
  sessionData busy = Some session /\
  falsy (Some "assistant") || falsy (Some "Summary: ...") = false /\
  (clock (S (S (clock_reads busy))) - clock (S (clock_reads busy)) < 86400000)%Z /\
  length (history (snd (alarm clock
            (snd (fetch clock failing
                    (POST_store (Some "assistant") (Some "Summary: ...")) busy)))))
  = 13%nat.
Proof.
  assert (H : (clock (S (S (clock_reads busy))) - clock (S (clock_reads busy))
               < 86400000)%Z) by (vm_compute; reflexivity).
  split; [reflexivity |]. split; [reflexivity |]. split; [exact H |].
  destruct (store_postpones_expiry clock failing (Some "assistant")
              (Some "Summary: ...") busy session eq_refl eq_refl H)
    as (Hh & _).
  rewrite Hh. vm_compute. reflexivity.
Defined.


End SessionBehaviour.

(** ** More on the workflows *)

Module WorkflowBehaviour.

Import JS Value WorkflowFacts Printing Units.

Lemma includes_In (l : list string) (s : string) :
  includes l s = true -> In s l.
Proof.
  unfold includes. intros H. apply existsb_exists in H.
  destruct H as (x & Hx & E). apply String.eqb_eq in E. subst x. exact Hx.
Qed.

Section Behaviour.

Context {Num : Type} (engine : Engine Num).

(** *** The questions stages *)

(** The difficulty stage always returns one of its three labels, and a
    label other than "intermediate" only when the model answered a text
    that lower-cased and trimmed is that label. *)
Theorem difficulty_label_is_known (run : AiRequest -> AiOutcome)
  (content : string) :
  let level := QuestionsWorkflow.analyzeContentDifficulty run content in
  In level ["beginner"; "intermediate"; "advanced"] /\
  (level = "intermediate" \/
   exists request text,
     run request = Responds (Some text) /\ trim (toLowerCase text) = level).
Proof.
  unfold QuestionsWorkflow.analyzeContentDifficulty.
  match goal with
  | |- context [responding (run ?r) _] => destruct (run r) as [| response] eqn:E
  end; cbn [responding try_catch].
  - cbn. auto.
  - destruct response as [[| c s] |]; cbn [or_default].
    + vm_compute. auto.
    + destruct (includes _ (trim (toLowerCase (String c s)))) eqn:I;
        cbn [try_catch].
      * split; [apply includes_In; exact I |]. right. eauto.
      * cbn. auto.
    + vm_compute. auto.
Qed.

Lemma nonempty_strings_spec (items : list (Json Num)) (q : string) :
  In q (nonempty_strings items) <-> q <> EmptyString /\ In (JString q) items.
Proof.
  induction items as [| x rest IH]; cbn; [tauto |].
  destruct x as [| b | n | [| c s] | l | f]; cbn; rewrite IH;
    intuition congruence.
Qed.

(** The generate stage returns non-empty texts only.  They are the
    non-empty string elements of the array parsed from the bracketed part
    of the model's text, in order; with a failed call, no brackets, a parse
    error or a parse that gives no array the stage returns no question. *)
Theorem generated_questions_are_texts (run : AiRequest -> AiOutcome)
  (content title difficulty : string) :
  let generated :=
    QuestionsWorkflow.generateQuestions engine run content title difficulty in
  Forall (fun q => q <> EmptyString) generated /\
  (generated = [] \/
   exists request response m items,
     run request = Responds response /\
     match_array (or_default response "[]") = Some m /\
     JSON_parse engine m = Normal (JArray items) /\
     generated = nonempty_strings items /\
     forall q, In q generated <-> q <> EmptyString /\ In (JString q) items).
Proof.
  unfold QuestionsWorkflow.generateQuestions.
  match goal with
  | |- context [responding (run ?r) _] => destruct (run r) as [| response] eqn:E
  end; cbn [responding try_catch]; [split; [constructor | auto] |].
  destruct (match_array (or_default response "[]")) as [m |] eqn:Em;
    [| split; [constructor | auto]].
  destruct (JSON_parse engine m) as [v | e] eqn:Ep; cbn [cbind try_catch];
    [| split; [constructor | auto]].
  destruct v as [| b | n | s | items | fields]; cbn [try_catch];
    try (split; [constructor | auto]; fail).
  split.
  - apply Forall_forall. intros q Hq. apply nonempty_strings_spec in Hq. tauto.
  - right. eexists. exists response, m, items.
    split; [exact E |]. split; [exact Em |]. split; [exact Ep |].
    split; [reflexivity |]. intros q. apply nonempty_strings_spec.
Qed.

(** *** Categorization *)

Lemma find_index_first (items : list (Json Num)) (idx : nat) (c : Json Num) :
  find_index engine items idx = Normal (Some c) ->
  exists before rest,
    items = before ++ c :: rest /\
    forallb (fun x => negb (QuestionsWorkflow.covers engine idx x)) before = true /\
    QuestionsWorkflow.covers engine idx c = true.
Proof.
  induction items as [| x xs IH]; intros H; [discriminate |].
  cbn [find_index] in H.
  destruct (get x "index") as [v | e] eqn:G; cbn [cbind] in H; [| discriminate].
  destruct (is_index engine v idx) eqn:I.
  - inversion H; subst x. exists [], xs. split; [reflexivity |].
    split; [reflexivity |].
    destruct c; cbn in G; inversion G; subst; cbn in *; try discriminate.
    exact I.
  - destruct (IH H) as (before & rest & -> & Hb & Hc).
    exists (x :: before), rest. split; [reflexivity |]. split; [| exact Hc].
    cbn [forallb]. rewrite Hb, andb_true_r. apply negb_true_iff.
    destruct x; cbn in G; inversion G; subst; cbn in *; try reflexivity.
    exact I.
Qed.

(** What a categorization that went through gives for one question. *)
Lemma categorize_normal (items : list (Json Num)) (q : string) (idx : nat)
  (y : QuestionsWorkflow.StudyQuestion) :
  QuestionsWorkflow.categorize engine items q idx = Normal y ->
  y = QuestionsWorkflow.default_question q \/
  exists c t d,
    find_index engine items idx = Normal (Some c) /\
    get c "type" = Normal (Some (JString t)) /\
    get c "difficulty" = Normal (Some (JString d)) /\
    y = {| QuestionsWorkflow.question := q;
           QuestionsWorkflow.type := QuestionsWorkflow.validateType t;
           QuestionsWorkflow.difficulty := QuestionsWorkflow.validateDifficulty d |}.
Proof.
  unfold QuestionsWorkflow.categorize.
  destruct (find_index engine items idx) as [[c |] | e]; cbn [cbind];
    [| intros H; inversion H; left; reflexivity | discriminate].
  destruct (get c "type") as [t | e] eqn:Gt; cbn [cbind]; [| discriminate].
  destruct t as [[| | | t | |] |]; cbn [as_string cbind]; try discriminate.
  destruct (get c "difficulty") as [d | e] eqn:Gd; cbn [cbind]; [| discriminate].
  destruct d as [[| | | d | |] |]; cbn [as_string cbind]; try discriminate.
  intros H. inversion H. right. exists c, t, d. auto.
Qed.

Lemma categorize_labels (items : list (Json Num)) (q : string) (idx : nat)
  (y : QuestionsWorkflow.StudyQuestion) :
  QuestionsWorkflow.categorize engine items q idx = Normal y ->
  QuestionsWorkflow.question y = q /\
  In (QuestionsWorkflow.type y) ["recall"; "comprehension"; "application"] /\
  In (QuestionsWorkflow.difficulty y) ["easy"; "medium"; "hard"].
Proof.
  intros H. destruct (categorize_normal items q idx y H)
    as [-> | (c & t & d & _ & _ & _ & ->)]; cbn.
  - auto 6.
  - split; [reflexivity |].
    split; [apply validateType_vocabulary | apply validateDifficulty_vocabulary].
Qed.

Lemma map_indexed_each {A B : Type} (f : A -> nat -> Completion B)
  (P : A -> B -> Prop) (l : list A) :
  (forall x i y, f x i = Normal y -> P x y) ->
  forall start r, map_indexed f l start = Normal r -> Forall2 P l r.
Proof.
  intros Hf. induction l as [| x rest IH]; intros start r H; cbn in H.
  - inversion H. constructor.
  - destruct (f x start) as [y | e] eqn:E; cbn in H; [| discriminate].
    destruct (map_indexed f rest (S start)) as [ys | e] eqn:Er; cbn in H;
      [| discriminate].
    inversion H. constructor; [eapply Hf; exact E | eapply IH; exact Er].
Qed.

Lemma map_indexed_raises {A B : Type} (f : A -> nat -> Completion B)
  (l : list A) :
  forall start i x e,
    nth_error l i = Some x ->
    f x (start + i)%nat = Throw e ->
    exists e', map_indexed f l start = Throw e'.
Proof.
  induction l as [| x0 rest IH]; intros start i x e Hi Hf.
  - destruct i; discriminate.
  - cbn [map_indexed]. destruct i as [| i]; cbn in Hi.
    + inversion Hi; subst x0. rewrite Nat.add_0_r in Hf. rewrite Hf.
      eexists. reflexivity.
    + destruct (f x0 start) as [y | e0]; cbn [cbind]; [| eexists; reflexivity].
      rewrite Nat.add_succ_r in Hf.
      destruct (IH (S start) i x e Hi Hf) as [e' ->].
      eexists. reflexivity.
Qed.

(** The two ways the categorize stage ends: with every question on the
    defaults, or with all of them categorized from one parsed array. *)
Lemma categorizeQuestions_cases (run : AiRequest -> AiOutcome)
  (questions : list string) :
  QuestionsWorkflow.categorizeQuestions engine run questions
    = QuestionsWorkflow.with_defaults questions
  \/
  exists request items,
    QuestionsWorkflow.categories_of engine (run request) = Some items /\
    map_indexed (QuestionsWorkflow.categorize engine items) questions 0%nat
      = Normal (QuestionsWorkflow.categorizeQuestions engine run questions).
Proof.
  unfold QuestionsWorkflow.categorizeQuestions, QuestionsWorkflow.categories_of.
  destruct questions as [| q0 rest]; [left; reflexivity |].
  cbn [length Nat.eqb].
  match goal with
  | |- context [responding (run ?r) _] =>
      set (request := r); destruct (run request) as [| response] eqn:E
  end; cbn [responding try_catch]; [left; reflexivity |].
  destruct (match_array (or_default response "[]")) as [m |] eqn:Em;
    [| left; reflexivity].
  destruct (JSON_parse engine m) as [v | e] eqn:Ep; cbn [cbind try_catch];
    [| left; reflexivity].
  destruct v as [| b | n | s | items | fields]; try (left; reflexivity).
  destruct (map_indexed _ _ _) as [l | e] eqn:El; cbn [cbind try_catch];
    [| left; reflexivity].
  right. exists request, items. rewrite E, Em, Ep. split; [reflexivity | exact El].
Qed.

(** The categorize stage hands every question back, in order and with its
    text unchanged, and every label it attaches lies in the vocabulary. *)
Theorem categorized_questions_keep_texts (run : AiRequest -> AiOutcome)
  (questions : list string) :
  let result := QuestionsWorkflow.categorizeQuestions engine run questions in
  map QuestionsWorkflow.question result = questions /\
  Forall (fun s =>
            In (QuestionsWorkflow.type s) ["recall"; "comprehension"; "application"] /\
            In (QuestionsWorkflow.difficulty s) ["easy"; "medium"; "hard"])
         result.
Proof.
  cbn zeta.
  destruct (categorizeQuestions_cases run questions)
    as [-> | (request & items & _ & H)].
  - unfold QuestionsWorkflow.with_defaults. split.
    + rewrite map_map. cbn. apply map_id.
    + apply Forall_forall. intros s Hs. apply in_map_iff in Hs.
      destruct Hs as (q & <- & _). cbn. auto 6.
  - apply (map_indexed_each _
             (fun q y =>
                QuestionsWorkflow.question y = q /\
                In (QuestionsWorkflow.type y) ["recall"; "comprehension"; "application"] /\
                In (QuestionsWorkflow.difficulty y) ["easy"; "medium"; "hard"]))
      in H; [| intros x i y Hy; eapply categorize_labels; exact Hy].
    induction H as [| q y qs ys (Hq & Ht & Hd) _ [IH1 IH2]]; cbn.
    + split; constructor.
    + split; [f_equal; assumption | constructor; auto].
Qed.

(** Categorization is all or nothing: when the model's array is such that
    categorizing one question raises (a [null] entry met while searching, a
    matching entry whose type or difficulty is no string), every question
    comes back on the defaults, the well categorized ones too. *)
Theorem one_bad_category_resets_all (run : AiRequest -> AiOutcome)
  (questions : list string) (items : list (Json Num))
  (idx : nat) (q : string) (e : Error) :
  (forall request,
     QuestionsWorkflow.categories_of engine (run request) = Some items) ->
  nth_error questions idx = Some q ->
  QuestionsWorkflow.categorize engine items q idx = Throw e ->
  QuestionsWorkflow.categorizeQuestions engine run questions
    = QuestionsWorkflow.with_defaults questions.
Proof.
  intros Hrun Hq He.
  destruct (categorizeQuestions_cases run questions)
    as [H | (request & items' & Hi & H)]; [exact H |].
  rewrite Hrun in Hi. inversion Hi; subst items'.
  destruct (map_indexed_raises _ questions 0%nat idx q e Hq He) as [e' E].
  rewrite E in H. discriminate H.
Qed.

(** A label other than the defaults has one source: the first entry of the
    model's array whose [index] is the question's position, with its type
    and difficulty passed through the validators. *)
Theorem labels_come_from_first_match (run : AiRequest -> AiOutcome)
  (questions : list string) (items : list (Json Num))
  (idx : nat) (q : string) (y : QuestionsWorkflow.StudyQuestion) :
  (forall request,
     QuestionsWorkflow.categories_of engine (run request) = Some items) ->
  nth_error questions idx = Some q ->
  nth_error (QuestionsWorkflow.categorizeQuestions engine run questions) idx
    = Some y ->
  y <> QuestionsWorkflow.default_question q ->
  exists before c rest t d,
    items = before ++ c :: rest /\
    forallb (fun x => negb (QuestionsWorkflow.covers engine idx x)) before = true /\
    QuestionsWorkflow.covers engine idx c = true /\
    get c "type" = Normal (Some (JString t)) /\
    get c "difficulty" = Normal (Some (JString d)) /\
    y = {| QuestionsWorkflow.question := q;
           QuestionsWorkflow.type := QuestionsWorkflow.validateType t;
           QuestionsWorkflow.difficulty := QuestionsWorkflow.validateDifficulty d |}.
Proof.
  intros Hrun Hq Hy Hnd.
  destruct (categorizeQuestions_cases run questions)
    as [H | (request & items' & Hi & H)].
  - rewrite H, (with_defaults_nth questions idx q Hq) in Hy.
    inversion Hy. congruence.
  - rewrite Hrun in Hi. inversion Hi; subst items'.
    destruct (map_indexed_nth _ _ _ _ _ _ H Hq) as (y' & Hc & Hn).
    rewrite Hn in Hy. inversion Hy; subst y'. cbn [Nat.add] in Hc.
    destruct (categorize_normal items q idx y Hc)
      as [-> | (c & t & d & Hf & Ht & Hd & ->)]; [congruence |].
    destruct (find_index_first items idx c Hf) as (before & rest & -> & Hb & Hcov).
    exists before, c, rest, t, d. auto 7.
Qed.

(** When the generate stage's call fails, the run returns no question and
    the count 0, whatever the other two calls answer. *)
Theorem failed_generation_gives_no_questions
  (AI : Invoker) (noteContent noteTitle : string) :
  (forall request, AI 1%nat request = Fails) ->
  QuestionsWorkflow.run engine AI noteContent noteTitle
    = {| QuestionsWorkflow.questions := [];
         QuestionsWorkflow.totalCount := 0 |}.
Proof.
  intros Hfail. unfold QuestionsWorkflow.run, QuestionsWorkflow.generateQuestions.
  rewrite Hfail. reflexivity.
Qed.

(** The validators accept what they return: validating twice is
    validating once. *)
Theorem validators_are_idempotent (t : string) :
  QuestionsWorkflow.validateType (QuestionsWorkflow.validateType t)
    = QuestionsWorkflow.validateType t /\
  QuestionsWorkflow.validateDifficulty (QuestionsWorkflow.validateDifficulty t)
    = QuestionsWorkflow.validateDifficulty t.
Proof.
  split.
  - destruct (validateType_vocabulary t) as [<- | [<- | [<- | []]]]; reflexivity.
  - destruct (validateDifficulty_vocabulary t) as [<- | [<- | [<- | []]]];
      reflexivity.
Qed.

(** *** The summary stages *)



(** *** When joining the topics raises *)






End Behaviour.

(** *** The statements above at concrete inputs *)

Import Sample MoreSamples.

Lemma one_bad_category_resets_all_witness :
  (forall request,
     QuestionsWorkflow.categories_of Parser.engine (broken_model request)
     = Some broken_items) /\
  nth_error two_questions 1 = Some "Why do cells divide?" /\
  QuestionsWorkflow.categorize Parser.engine broken_items
    "Why do cells divide?" 1 = Throw TypeError /\
  QuestionsWorkflow.categorizeQuestions Parser.engine broken_model two_questions
    = QuestionsWorkflow.with_defaults two_questions.
Proof.
  assert (H1 : forall request,
             QuestionsWorkflow.categories_of Parser.engine (broken_model request)
             = Some broken_items) by (intros; vm_compute; reflexivity).
  assert (H3 : QuestionsWorkflow.categorize Parser.engine broken_items
                 "Why do cells divide?" 1 = Throw TypeError)
    by (vm_compute; reflexivity).
  split; [exact H1 |]. split; [reflexivity |]. split; [exact H3 |].
  exact (one_bad_category_resets_all Parser.engine broken_model two_questions
           broken_items 1 "Why do cells divide?" TypeError H1 eq_refl H3).
Defined.

Lemma labels_come_from_first_match_witness :
  (forall request,
     QuestionsWorkflow.categories_of Parser.engine (double_model request)
     = Some double_items) /\
  nth_error
    (QuestionsWorkflow.categorizeQuestions Parser.engine double_model two_questions)
    0
  = Some {| QuestionsWorkflow.question := "What is a cell?";
            QuestionsWorkflow.type := "application";
            QuestionsWorkflow.difficulty := "hard" |} /\
  exists before c rest t d,
    double_items = before ++ c :: rest /\
    length before = 1%nat /\
    Value.get c "type" = Normal (Some (JString t)) /\
    Value.get c "difficulty" = Normal (Some (JString d)) /\
    QuestionsWorkflow.validateType t = "application" /\
    QuestionsWorkflow.validateDifficulty d = "hard".
Proof.
  assert (H1 : forall request,
             QuestionsWorkflow.categories_of Parser.engine (double_model request)
             = Some double_items) by (intros; vm_compute; reflexivity).
  assert (H3 : nth_error
                 (QuestionsWorkflow.categorizeQuestions Parser.engine
                    double_model two_questions) 0
               = Some {| QuestionsWorkflow.question := "What is a cell?";
                         QuestionsWorkflow.type := "application";
                         QuestionsWorkflow.difficulty := "hard" |})
    by (vm_compute; reflexivity).
  split; [exact H1 |]. split; [exact H3 |].
  destruct (labels_come_from_first_match Parser.engine double_model two_questions
              double_items 0 "What is a cell?" _ H1 eq_refl H3)
    as (before & c & rest & t & d & Hi & Hb & Hc & Ht & Hd & Hy);
    [intros H; discriminate H |].
  exists before, c, rest, t, d.
  inversion Hy as [[Hty Hdf]].
  split; [exact Hi |]. split; [| auto].
  destruct before as [| b1 [| b2 before]]; [| reflexivity |].
  - exfalso. cbn in Hi. inversion Hi; subst c. vm_compute in Hc. discriminate Hc.
  - exfalso. cbn in Hi. inversion Hi; subst. vm_compute in Hb. discriminate Hb.
Defined.

Lemma failed_generation_gives_no_questions_witness :
  (forall request, failing 1%nat request = Fails) /\
  QuestionsWorkflow.run Parser.engine failing "Cells divide." "Biology"
    = {| QuestionsWorkflow.questions := [];
         QuestionsWorkflow.totalCount := 0 |}.
Proof.
  split; [reflexivity |].
  apply (failed_generation_gives_no_questions Parser.engine failing
           "Cells divide." "Biology").
  reflexivity.
Defined.


End WorkflowBehaviour.

(** ** The bracketed part of a model answer *)

Module ExtractionFacts.

Import JS Units.

Lemma after_first_open_none (s : string) :
  after_first_open s = None <-> occurs "[" s = false.
Proof.
  induction s as [| c r IH]; cbn; [tauto |].
  destruct (Ascii.eqb c "["); cbn; [split; discriminate | exact IH].
Qed.

Lemma after_first_open_some (s r : string) :
  after_first_open s = Some r <->
  exists pre, s = pre +++ String "[" r /\ occurs "[" pre = false.
Proof.
  split.
  - revert r. induction s as [| c s' IH]; intros r H; cbn in H; [discriminate |].
    destruct (Ascii.eqb_spec c "[") as [-> | Hc].
    + inversion H; subst. exists EmptyString. split; reflexivity.
    + destruct (IH r H) as (pre & -> & Hp). exists (String c pre).
      split; [reflexivity |]. cbn. rewrite Hp.
      destruct (Ascii.eqb_spec c "["); [contradiction | reflexivity].
  - intros (pre & -> & Hp). induction pre as [| c pre IH]; cbn.
    + reflexivity.
    + cbn in Hp. apply orb_false_iff in Hp as [Hc Hp]. rewrite Hc.
      apply IH. exact Hp.
Qed.

Lemma through_last_close_none (s : string) :
  through_last_close s = None <-> occurs "]" s = false.
Proof.
  induction s as [| c r IH]; cbn; [tauto |].
  destruct (through_last_close r) as [p |].
  - split; [discriminate |]. intros H. apply orb_false_iff in H as [_ H].
    apply IH in H. discriminate H.
  - destruct (Ascii.eqb c "]"); cbn; [split; discriminate |].
    split; intros _; [apply IH |]; reflexivity.
Qed.

Lemma through_last_close_some (s p : string) :
  through_last_close s = Some p <->
  exists body post,
    s = body +++ String "]" post /\ occurs "]" post = false /\
    p = body +++ "]".
Proof.
  split.
  - revert p. induction s as [| c r IH]; intros p H; cbn in H; [discriminate |].
    destruct (through_last_close r) as [p' |] eqn:E.
    + inversion H; subst p. destruct (IH p' eq_refl) as (body & post & -> & Hp & ->).
      exists (String c body), post. auto.
    + destruct (Ascii.eqb_spec c "]") as [-> | Hc]; [| discriminate].
      inversion H; subst p. exists EmptyString, r.
      split; [reflexivity |]. split; [| reflexivity].
      apply through_last_close_none. exact E.
  - intros (body & post & -> & Hp & ->).
    induction body as [| c body IH]; cbn.
    + apply through_last_close_none in Hp. rewrite Hp. reflexivity.
    + rewrite IH. reflexivity.
Qed.

(** What the stages take out of a model answer runs from the first opening
    bracket of the text to its last closing bracket, whatever lies in
    between; and nothing is taken out exactly when the text has no opening
    bracket, or no closing bracket after the first opening one. *)
Theorem match_array_spans_brackets (text : string) :
  (forall m,
     match_array text = Some m <->
     exists pre body post,
       text = pre +++ "[" +++ body +++ "]" +++ post /\
       occurs "[" pre = false /\
       occurs "]" post = false /\
       m = "[" +++ body +++ "]") /\
  (match_array text = None <->
   occurs "[" text = false \/
   exists pre rest,
     text = pre +++ "[" +++ rest /\
     occurs "[" pre = false /\
     occurs "]" rest = false).
Proof.
  unfold match_array. split.
  - intros m. split.
    + destruct (after_first_open text) as [r |] eqn:Eo; [| discriminate].
      destruct (through_last_close r) as [p |] eqn:Ec; [| discriminate].
      intros H. inversion H; subst m.
      apply after_first_open_some in Eo as (pre & -> & Hpre).
      apply through_last_close_some in Ec as (body & post & -> & Hpost & ->).
      exists pre, body, post. auto.
    + intros (pre & body & post & -> & Hpre & Hpost & ->).
      assert (Eo : after_first_open (pre +++ "[" +++ body +++ "]" +++ post)
                   = Some (body +++ "]" +++ post)).
      { apply after_first_open_some. exists pre. auto. }
      rewrite Eo.
      assert (Ec : through_last_close (body +++ "]" +++ post)
                   = Some (body +++ "]")).
      { apply through_last_close_some. exists body, post. auto. }
      rewrite Ec. reflexivity.
  - destruct (after_first_open text) as [r |] eqn:Eo.
    + apply after_first_open_some in Eo as (pre & -> & Hpre).
      destruct (through_last_close r) as [p |] eqn:Ec.
      * split; [discriminate |]. intros [H | (pre' & rest & E & Hp' & Hr)].
        -- exfalso. apply after_first_open_none in H.
           assert (Eo : after_first_open (pre +++ String "[" r) = Some r)
             by (apply after_first_open_some; eauto).
           congruence.
        -- exfalso.
           assert (E1 : after_first_open (pre +++ String "[" r) = Some r)
             by (apply after_first_open_some; eauto).
           assert (E2 : after_first_open (pre' +++ "[" +++ rest) = Some rest)
             by (apply after_first_open_some; eauto).
           rewrite E, E2 in E1. inversion E1; subst rest.
           apply through_last_close_none in Hr. congruence.
      * split; [| reflexivity]. intros _. right. exists pre, r.
        split; [reflexivity |]. split; [exact Hpre |].
        apply through_last_close_none. exact Ec.
    + split; [| reflexivity]. intros _. left.
      apply after_first_open_none. exact Eo.
Qed.

End ExtractionFacts.

(** ** The Worker's handlers *)

Module WorkerFacts.

Import JS ChatSession SliceFacts SessionBehaviour.

Lemma with_actor_same (ns : Worker.Namespace) (name : string) (a : Actor) :
  Worker.with_actor ns name a name = a.
Proof. unfold Worker.with_actor. rewrite String.eqb_refl. reflexivity. Qed.

Lemma with_actor_other (ns : Worker.Namespace) (name other : string) (a : Actor) :
  other <> name -> Worker.with_actor ns name a other = ns other.
Proof.
  intros H. unfold Worker.with_actor.
  destruct (String.eqb_spec other name); [contradiction | reflexivity].
Qed.

Section Facts.

Context {Num : Type} (engine : Engine Num).
Variable Date_now : string -> nat -> Z.
Variable AI : string -> Invoker.
Variable DB_first : string -> Completion (option Worker.NoteRow).

Lemma stub_fetch_spec (name : string) (request : Request) (ns : Worker.Namespace) :
  Worker.stub_fetch Date_now AI name request ns
  = (fst (fetch (Date_now name) (AI name) request (ns name)),
     Worker.with_actor ns name
       (snd (fetch (Date_now name) (AI name) request (ns name)))).
Proof.
  unfold Worker.stub_fetch.
  destruct (fetch (Date_now name) (AI name) request (ns name)). reflexivity.
Qed.


(** [/api/chat/store] followed by [/api/chat/history].  With a falsy note
    id, role or content the store answers 400 and touches no session.
    Otherwise the session never turns the message down: the store answers
    success, and the history read next for the same note ends with the
    message stored, behind the last 49 messages the note had; no other
    session has changed. *)
Theorem store_then_history (noteId role content : option string)
  (ns : Worker.Namespace) :
  let name := the noteId in
  let response :=
    fst (Worker.handleStoreMessage (Num := Num) Date_now AI noteId role content ns) in
  let ns1 :=
    snd (Worker.handleStoreMessage (Num := Num) Date_now AI noteId role content ns) in
  if falsy noteId || falsy role || falsy content then
    response = Worker.jsonResponse
                 (Worker.Failure "Missing noteId, role, or content") 400 /\
    ns1 = ns
  else
    response = Worker.jsonResponse (Worker.Done true) 200 /\
    fst (Worker.handleChatHistory (Num := Num) Date_now AI name ns1)
      = Worker.jsonResponse
          (Worker.ChatHistory
             (slice_last 49 (history (ns name))
              ++ [{| role := the role; content := the content;
                     timestamp := Date_now name (clock_reads (ns name)) |}]))
          200 /\
    (forall other, other <> name -> ns1 other = ns other).
Proof.
  cbn zeta. unfold Worker.handleStoreMessage.
  destruct (falsy noteId || falsy role || falsy content) eqn:E;
    [split; reflexivity |].
  apply orb_false_iff in E as [E Hc]. apply orb_false_iff in E as [_ Hr].
  assert (Hrc : falsy role || falsy content = false)
    by (rewrite Hr, Hc; reflexivity).
  unfold Worker.handleChatHistory, Worker.bind, Worker.ret.
  rewrite stub_fetch_spec. cbn [fst snd].
  rewrite stub_fetch_spec, with_actor_same. cbn [fst snd].
  cbn [fetch].
  pose proof (ChatSessionFacts.handleStoreMessage_spec (Date_now (the noteId))
                role content (ns (the noteId))) as H.
  destruct (handleStoreMessage (Date_now (the noteId)) role content
              (ns (the noteId))) as [r a1].
  destruct H as [(Hf & _) | (_ & -> & Hh & _)]; [congruence |].
  cbn [fst snd]. unfold handleGetHistory, ChatSession.bind, getMessages.
  cbn -[slice_last]. fold (history a1). rewrite Hh, (slice_last_push 49).
  split; [reflexivity |]. split; [reflexivity |].
  intros other Ho. apply with_actor_other. exact Ho.
Qed.


End Facts.

End WorkerFacts.

(** ** The router *)

Module RouterFacts.

Import JS Units Router.

Lemma prefix_app (p s : string) :
  String.prefix p s = true -> exists rest, s = p +++ rest.
Proof.
  revert s. induction p as [| a p IH]; intros s H.
  - exists s. reflexivity.
  - destruct s as [| b s]; cbn in H; [discriminate |].
    destruct (ascii_dec a b) as [-> | _]; [| discriminate].
    destruct (IH s H) as [rest ->]. exists rest. reflexivity.
Qed.

Lemma prefix_append (p s : string) : String.prefix p (p +++ s) = true.
Proof.
  induction p as [| a p IH]; cbn.
  - destruct s; reflexivity.
  - destruct (ascii_dec a a) as [_ | H]; [exact IH | contradiction].
Qed.

Lemma endsWith_app (s p : string) : endsWith (s +++ p) p = true.
Proof.
  induction s as [| c r IH]; cbn [append].
  - destruct p; cbn [endsWith]; rewrite String.eqb_refl; reflexivity.
  - cbn [endsWith]. rewrite IH. apply orb_true_r.
Qed.

Lemma append_assoc (s t u : string) : s +++ t +++ u = (s +++ t) +++ u.
Proof. induction s as [| c r IH]; cbn; [reflexivity | rewrite IH; reflexivity]. Qed.

Lemma length_append (s t : string) :
  String.length (s +++ t) = (String.length s + String.length t)%nat.
Proof. induction s as [| c r IH]; cbn; [reflexivity | rewrite IH; reflexivity]. Qed.

(** A text ending in ["/questions"] does not end in ["/summary"]. *)
Lemma endsWith_other_suffix (s : string) :
  endsWith (s +++ "/questions") "/summary" = false.
Proof.
  induction s as [| c r IH]; [reflexivity |].
  cbn [append endsWith]. rewrite IH, orb_false_r.
  apply String.eqb_neq. intros H. apply (f_equal String.length) in H.
  cbn in H. rewrite length_append in H. cbn in H. lia.
Qed.

Lemma split_piece (c : ascii) (piece rest : string) :
  occurs c piece = false ->
  split c (piece +++ String c rest) = piece :: split c rest.
Proof.
  induction piece as [| x r IH]; intros H; cbn.
  - rewrite Ascii.eqb_refl. reflexivity.
  - cbn in H. apply orb_false_iff in H as [Hx Hr]. rewrite Hx, (IH Hr).
    reflexivity.
Qed.

Lemma split_last (c : ascii) (piece : string) :
  occurs c piece = false -> split c piece = [piece].
Proof.
  induction piece as [| x r IH]; intros H; cbn; [reflexivity |].
  cbn in H. apply orb_false_iff in H as [Hx Hr]. rewrite Hx, (IH Hr).
  reflexivity.
Qed.

(** The pieces of a workflow path. *)
Lemma split_workflow_path (id suffix : string) :
  occurs "/" id = false ->
  occurs "/" suffix = false ->
  split "/" ("/api/notes/" +++ id +++ String "/" suffix)
  = [EmptyString; "api"; "notes"; id; suffix].
Proof.
  intros Hid Hs.
  change ("/api/notes/" +++ id +++ String "/" suffix)
    with (EmptyString +++ String "/"
            ("api" +++ String "/"
               ("notes" +++ String "/" (id +++ String "/" suffix)))).
  rewrite !split_piece, split_last by (assumption || reflexivity).
  reflexivity.
Qed.

Lemma falsy_the (x : option string) : falsy x = false -> the x <> EmptyString.
Proof. destruct x as [[| c s] |]; cbn; intros H; discriminate. Qed.

Section Facts.

Variable decodeURIComponent : string -> option string.

(** The workflow URLs the editor builds reach their handlers with the id
    they were built from: for an id that is not empty and holds no slash, a
    POST to [/api/notes/{id}/summary] goes to the summary handler with
    [id], and one to [/api/notes/{id}/questions] to the questions handler
    with [id].  The id is taken as it stands in the path, undecoded. *)
Theorem workflow_urls_carry_the_id (id : string) (noteId : option string) :
  id <> EmptyString ->
  occurs "/" id = false ->
  route decodeURIComponent "POST" ("/api/notes/" +++ id +++ "/summary") noteId
    = GenerateSummary id /\
  route decodeURIComponent "POST" ("/api/notes/" +++ id +++ "/questions") noteId
    = GenerateQuestions id.
Proof.
  intros Hne Hid.
  split.
  - pose proof (split_workflow_path id "summary" Hid eq_refl) as Hsplit.
    assert (Hend : endsWith ("/api/notes/" +++ id +++ "/summary") "/summary" = true).
    { rewrite append_assoc. apply endsWith_app. }
    remember ("/api/notes/" +++ id +++ "/summary") as p eqn:Ep.
    assert (H1 : String.eqb p "/" = false) by (subst p; reflexivity).
    assert (H2 : String.eqb p "/api/chat" = false) by (subst p; reflexivity).
    assert (H3 : String.eqb p "/api/chat/history" = false) by (subst p; reflexivity).
    assert (H4 : String.eqb p "/api/chat/clear" = false) by (subst p; reflexivity).
    assert (H5 : String.eqb p "/api/chat/store" = false) by (subst p; reflexivity).
    assert (H6 : String.eqb p "/api/upload" = false) by (subst p; reflexivity).
    assert (H7 : startsWith p "/api/images/" = false) by (subst p; reflexivity).
    assert (H8 : startsWith p "/api/notes/" = true)
      by (subst p; apply prefix_append).
    unfold route, images, workflows.
    rewrite H1, H2, H3, H4, H5, H6, H7, H8, Hend, Hsplit. cbn.
    destruct id; [contradiction | reflexivity].
  - pose proof (split_workflow_path id "questions" Hid eq_refl) as Hsplit.
    assert (Hend : endsWith ("/api/notes/" +++ id +++ "/questions") "/questions"
                   = true).
    { rewrite append_assoc. apply endsWith_app. }
    assert (Hnot : endsWith ("/api/notes/" +++ id +++ "/questions") "/summary"
                   = false).
    { rewrite append_assoc. apply endsWith_other_suffix. }
    remember ("/api/notes/" +++ id +++ "/questions") as p eqn:Ep.
    assert (H1 : String.eqb p "/" = false) by (subst p; reflexivity).
    assert (H2 : String.eqb p "/api/chat" = false) by (subst p; reflexivity).
    assert (H3 : String.eqb p "/api/chat/history" = false) by (subst p; reflexivity).
    assert (H4 : String.eqb p "/api/chat/clear" = false) by (subst p; reflexivity).
    assert (H5 : String.eqb p "/api/chat/store" = false) by (subst p; reflexivity).
    assert (H6 : String.eqb p "/api/upload" = false) by (subst p; reflexivity).
    assert (H7 : startsWith p "/api/images/" = false) by (subst p; reflexivity).
    assert (H8 : startsWith p "/api/notes/" = true)
      by (subst p; apply prefix_append).
    unfold route, images, workflows.
    rewrite H1, H2, H3, H4, H5, H6, H7, H8, Hend, Hnot, Hsplit. cbn.
    destruct id; [contradiction | reflexivity].
Qed.

(** Under [/api/notes/] a path ending in [/summary] or [/questions] belongs
    to the workflows alone.  A POST goes to the workflow handler with the
    fourth piece of the path as id, or is answered 400 when that piece is
    empty; any other method but OPTIONS is answered 404.  So such a path is
    never read, updated or deleted as a note. *)
Theorem workflow_paths_are_reserved (method pathname : string)
  (noteId : option string) :
  startsWith pathname "/api/notes/" = true ->
  endsWith pathname "/summary" || endsWith pathname "/questions" = true ->
  let r := route decodeURIComponent method pathname noteId in
  if String.eqb method "OPTIONS" then r = Preflight
  else if String.eqb method "POST" then
    r = BadRequest "Missing note id" \/
    exists id, id <> EmptyString /\
               nth_error (split "/" pathname) 3 = Some id /\
               (r = GenerateSummary id \/ r = GenerateQuestions id)
  else r = NotFound.
Proof.
  intros Hstart Hend. cbn zeta.
  destruct (prefix_app _ _ Hstart) as [rest Ep].
  assert (H1 : String.eqb pathname "/" = false) by (subst pathname; reflexivity).
  assert (H2 : String.eqb pathname "/api/chat" = false)
    by (subst pathname; reflexivity).
  assert (H3 : String.eqb pathname "/api/chat/history" = false)
    by (subst pathname; reflexivity).
  assert (H4 : String.eqb pathname "/api/chat/clear" = false)
    by (subst pathname; reflexivity).
  assert (H5 : String.eqb pathname "/api/chat/store" = false)
    by (subst pathname; reflexivity).
  assert (H6 : String.eqb pathname "/api/upload" = false)
    by (subst pathname; reflexivity).
  assert (H7 : startsWith pathname "/api/images/" = false)
    by (subst pathname; reflexivity).
  assert (H9 : String.eqb pathname "/api/notes" = false)
    by (subst pathname; reflexivity).
  clear Ep.
  unfold route, images, workflows, notes_collection, notes_by_id.
  rewrite H1, H2, H3, H4, H5, H6, H7, H9, Hstart.
  destruct (String.eqb method "OPTIONS"); [reflexivity |].
  cbn [andb].
  destruct (String.eqb method "POST").
  - destruct (endsWith pathname "/summary") eqn:Es; cbn [andb].
    + destruct (falsy (nth_error (split "/" pathname) 3)) eqn:Ef; [auto |].
      right. exists (the (nth_error (split "/" pathname) 3)).
      split; [apply falsy_the; exact Ef |].
      split; [| auto].
      destruct (nth_error (split "/" pathname) 3); [reflexivity | discriminate Ef].
    + cbn [orb] in Hend. rewrite Hend. cbn [andb].
      destruct (falsy (nth_error (split "/" pathname) 3)) eqn:Ef; [auto |].
      right. exists (the (nth_error (split "/" pathname) 3)).
      split; [apply falsy_the; exact Ef |].
      split; [| auto].
      destruct (nth_error (split "/" pathname) 3); [reflexivity | discriminate Ef].
  - rewrite !andb_false_r. cbn [andb]. rewrite Hend. reflexivity.
Qed.

End Facts.

(** *** The statements above at concrete inputs *)

Lemma workflow_urls_carry_the_id_witness :
  "note-1" <> EmptyString /\
  occurs "/" "note-1" = false /\
  route (fun s => Some s) "POST" "/api/notes/note-1/summary" None
    = GenerateSummary "note-1" /\
  route (fun s => Some s) "POST" "/api/notes/note-1/questions" None
    = GenerateQuestions "note-1".
Proof.
  split; [discriminate |]. split; [reflexivity |].
  apply (workflow_urls_carry_the_id (fun s => Some s) "note-1" None);
    [discriminate | reflexivity].
Defined.

Lemma workflow_paths_are_reserved_witness :
  startsWith "/api/notes/a/b/summary" "/api/notes/" = true /\
  endsWith "/api/notes/a/b/summary" "/summary"
    || endsWith "/api/notes/a/b/summary" "/questions" = true /\
  route (fun s => Some s) "GET" "/api/notes/a/b/summary" None = NotFound.
Proof.
  split; [reflexivity |]. split; [reflexivity |].
  apply (workflow_paths_are_reserved (fun s => Some s) "GET"
           "/api/notes/a/b/summary" None); reflexivity.
Defined.

End RouterFacts.
